(** * zenml: the KServe deployer step utilities and the container registry

    A shallow embedding of
    [src/zenml/integrations/kserve/steps/kserve_step_utils.py] and of the
    contracts its unit tests state for [BaseContainerRegistry], with the
    properties the specification gives for them.

    Layout:
    - [Py]: the pieces of the Python runtime the module leans on
      ([str.startswith], [str.rstrip], truthiness, [os.path.join]);
    - [Json]: [json.dump] and [json.load] restricted to objects whose values
      are strings, which is what the artifact metadata file holds;
    - the exceptions, the state-and-exception monad and the [Platform]
      interface standing for the calls that leave the module ([fileio],
      [io_utils], [tempfile], the model archiver);
    - [KServe]: the functions of [kserve_step_utils.py];
    - [MemFS]: an executable in-memory platform;
    - [Registry]: the container registry;
    - the lemmas and theorems. *)

From Stdlib Require Import String Ascii List NArith ZArith Lia Bool.
From stdpp Require Import base option gmap strings list.

Open Scope string_scope.

(** A Python [str] is a sequence of code points. Paths, file names and the
    text of files are kept as [string]; [str_of] reads such a literal as a
    Python string. *)
Definition pystr := list N.

Definition str_of (s : string) : pystr := N_of_ascii <$> list_ascii_of_string s.

(** ** Python runtime *)
Module Py.

(** [s.startswith(p)] *)
Definition startswith (s p : string) : bool := String.prefix p s.

(** [s.endswith(c)] for a one-character [c] *)
Fixpoint endswith (s : string) (c : ascii) : bool :=
  match s with
  | "" => false
  | String a "" => Ascii.eqb a c
  | String _ s' => endswith s' c
  end.

(** [s.rstrip(c)] for a one-character [c]: every trailing [c] is dropped. *)
Fixpoint rstrip (s : string) (c : ascii) : string :=
  match s with
  | "" => ""
  | String a s' =>
      match rstrip s' c with
      | "" => if Ascii.eqb a c then "" else String a ""
      | r => String a r
      end
  end.

(** [c * n] *)
Fixpoint repeat_char (c : ascii) (n : nat) : string :=
  match n with
  | O => ""
  | S n' => String c (repeat_char c n')
  end.

(** Truthiness of an [Optional[str]]: [None] and [""] are false. *)
Definition truthy (o : option string) : bool :=
  match o with
  | None | Some "" => false
  | Some _ => true
  end.

(** [posixpath.join(a, b)]:
    [if b.startswith(sep): path = b
     elif not path or path.endswith(sep): path += b
     else: path += sep + b] *)
Definition os_path_join (a b : string) : string :=
  if startswith b "/" then b
  else if String.eqb a "" || endswith a "/" then a ++ b
  else a ++ "/" ++ b.

(** The last character of a string, if it has one. *)
Fixpoint last_char (s : string) : option ascii :=
  match s with
  | "" => None
  | String a "" => Some a
  | String _ s' => last_char s'
  end.

(** [s.split(c)] for a one-character [c]: the fields between the
    occurrences of [c], one more than there are occurrences. *)
Fixpoint split (s : string) (c : ascii) : list string :=
  match s with
  | "" => [""]
  | String a s' =>
      if Ascii.eqb a c then "" :: split s' c
      else match split s' c with
           | field :: fields => String a field :: fields
           | [] => [String a ""]
           end
  end.

(** [c in s] for a one-character [c] *)
Fixpoint contains (s : string) (c : ascii) : bool :=
  match s with
  | "" => false
  | String a s' => Ascii.eqb a c || contains s' c
  end.

End Py.

Notation "a </> b" := (Py.os_path_join a b) (at level 40, left associativity).

(** ** json

    [json.dump(data, f)] with the default options ([ensure_ascii=True],
    separators [", "] and [": "]) for a [dict] from [str] to [str], and
    [json.load] for the same shape. The decoder follows
    [json.decoder.JSONObject] and the strict [scanstring]; a value that is
    not a string, or a document that is not an object, is outside what it
    reads and is answered with [None], as a malformed document is. The
    text of a file stands for the characters read from it: [json.dump]
    writes ASCII only, on which decoding the bytes of the file changes
    nothing. The properties below speak of files [json.dump] has written. *)
Module Json.

Definition dquote : ascii := "034"%char.
Definition backslash : ascii := "092"%char.

Definition hex_digit (d : N) : ascii :=
  if (d <? 10)%N then ascii_of_N (48 + d) else ascii_of_N (87 + d).

(** ['{0:04x}'.format(n)] for [n < 0x10000] *)
Definition format_04x (n : N) : string :=
  String (hex_digit (N.shiftr n 12 mod 16))
   (String (hex_digit (N.shiftr n 8 mod 16))
     (String (hex_digit (N.shiftr n 4 mod 16))
       (String (hex_digit (n mod 16)) ""))).

Definition u_escape (n : N) : string :=
  String backslash (String "u" (format_04x n)).

(** [replace(match)] of [py_encode_basestring_ascii]: [ESCAPE_DCT] first,
    then the [\uXXXX] form, a surrogate pair above the basic plane. *)
Definition replace (c : N) : string :=
  if (c =? 34)%N then String backslash (String dquote "")
  else if (c =? 92)%N then String backslash (String backslash "")
  else if (c =? 10)%N then String backslash "n"
  else if (c =? 13)%N then String backslash "r"
  else if (c =? 9)%N then String backslash "t"
  else if (c =? 12)%N then String backslash "f"
  else if (c =? 8)%N then String backslash "b"
  else if (c <? 65536)%N then u_escape c
  else
    let n := (c - 65536)%N in
    let s1 := N.lor 55296 (N.land (N.shiftr n 10) 1023) in
    let s2 := N.lor 56320 (N.land n 1023) in
    u_escape s1 ++ u_escape s2.

(** The pattern [ESCAPE_ASCII]: a backslash, a double quote, or anything
    outside the range from space to tilde. *)
Definition ESCAPE_ASCII (c : N) : bool :=
  (c =? 92)%N || (c =? 34)%N || negb ((32 <=? c)%N && (c <=? 126)%N).

Fixpoint escape_ascii (s : pystr) : string :=
  match s with
  | [] => ""
  | c :: s' =>
      (if ESCAPE_ASCII c then replace c else String (ascii_of_N c) "")
      ++ escape_ascii s'
  end.

Definition encode_basestring_ascii (s : pystr) : string :=
  String dquote (escape_ascii s ++ String dquote "").

(** The chunks [_iterencode_dict] yields for the items, in insertion order. *)
Fixpoint iterencode_items (first : bool) (items : list (pystr * pystr)) : string :=
  match items with
  | [] => ""
  | (k, v) :: rest =>
      (if first then "" else ", ")
      ++ encode_basestring_ascii k ++ ": " ++ encode_basestring_ascii v
      ++ iterencode_items false rest
  end.

Definition dumps (dct : list (pystr * pystr)) : string :=
  match dct with
  | [] => "{}"
  | _ => "{" ++ iterencode_items true dct ++ "}"
  end.

Definition hex_value (a : ascii) : option N :=
  let n := N_of_ascii a in
  if (48 <=? n)%N && (n <=? 57)%N then Some (n - 48)%N
  else if (97 <=? n)%N && (n <=? 102)%N then Some (n - 87)%N
  else if (65 <=? n)%N && (n <=? 70)%N then Some (n - 55)%N
  else None.

Definition decode_uXXXX (a b c d : ascii) : option N :=
  x3 ← hex_value a; x2 ← hex_value b; x1 ← hex_value c; x0 ← hex_value d;
  Some (N.lor (N.shiftl (N.lor (N.shiftl (N.lor (N.shiftl x3 4) x2) 4) x1) 4) x0).

(** The table [BACKSLASH] of [json.decoder]. *)
Definition BACKSLASH (esc : ascii) : option N :=
  let n := N_of_ascii esc in
  if (n =? 34)%N then Some 34%N
  else if (n =? 92)%N then Some 92%N
  else if (n =? 47)%N then Some 47%N
  else if (n =? 98)%N then Some 8%N
  else if (n =? 102)%N then Some 12%N
  else if (n =? 110)%N then Some 10%N
  else if (n =? 114)%N then Some 13%N
  else if (n =? 116)%N then Some 9%N
  else None.

Definition is_high_surrogate (u : N) : bool := (55296 <=? u)%N && (u <=? 56319)%N.
Definition is_low_surrogate (u : N) : bool := (56320 <=? u)%N && (u <=? 57343)%N.

(** [0x10000 + (((uni - 0xd800) << 10) | (uni2 - 0xdc00))] *)
Definition join_surrogates (u u2 : N) : N :=
  (65536 + N.lor (N.shiftl (u - 55296) 10) (u2 - 56320))%N.

Definition push (c : N) (r : option (pystr * string)) : option (pystr * string) :=
  match r with
  | Some (chunks, rest) => Some (c :: chunks, rest)
  | None => None
  end.

(** [scanstring(s, end, strict=True)], entered after the opening quote:
    the decoded string and the text after the closing quote. *)
Fixpoint scanstring (s : string) : option (pystr * string) :=
  match s with
  | "" => None
  | String c s1 =>
      if (N_of_ascii c =? 34)%N then Some ([], s1)
      else if (N_of_ascii c =? 92)%N then
        match s1 with
        | "" => None
        | String esc s2 =>
            if (N_of_ascii esc =? 117)%N then
              match s2 with
              | String a (String b (String c' (String d s6))) =>
                  match decode_uXXXX a b c' d with
                  | None => None
                  | Some uni =>
                      if is_high_surrogate uni then
                        match s6 with
                        | String e1 (String e2 (String a2 (String b2
                            (String c2 (String d2 s12))))) =>
                            if (N_of_ascii e1 =? 92)%N && (N_of_ascii e2 =? 117)%N then
                              match decode_uXXXX a2 b2 c2 d2 with
                              | None => None
                              | Some uni2 =>
                                  if is_low_surrogate uni2
                                  then push (join_surrogates uni uni2) (scanstring s12)
                                  else push uni (scanstring s6)
                              end
                            else push uni (scanstring s6)
                        | _ => push uni (scanstring s6)
                        end
                      else push uni (scanstring s6)
                  end
              | _ => None
              end
            else
              match BACKSLASH esc with
              | Some ch => push ch (scanstring s2)
              | None => None
              end
        end
      else if (N_of_ascii c <? 32)%N then None
      else push (N_of_ascii c) (scanstring s1)
  end.

(** [WHITESPACE_STR = ' \t\n\r'] *)
Definition is_whitespace (c : ascii) : bool :=
  let n := N_of_ascii c in
  (n =? 32)%N || (n =? 9)%N || (n =? 10)%N || (n =? 13)%N.

(** [_w(s, end).end()] *)
Fixpoint skip_whitespace (s : string) : string :=
  match s with
  | String c s' => if is_whitespace c then skip_whitespace s' else s
  | "" => ""
  end.

(** The [while True] loop of [JSONObject], entered after the opening quote
    of a key; [pairs] is the dictionary built so far (a later key replaces
    an earlier equal one, as [dict(pairs)] does). One unit of [fuel] is
    spent per member. *)
Fixpoint object_members (fuel : nat) (s : string) (pairs : gmap pystr pystr)
  : option (gmap pystr pystr * string) :=
  match fuel with
  | O => None
  | S fuel' =>
      '(key, s) ← scanstring s;
      match skip_whitespace s with
      | String colon s =>
          if negb (N_of_ascii colon =? 58)%N then None else
          match skip_whitespace s with
          | String q s =>
              if negb (N_of_ascii q =? 34)%N then None else
              '(value, s) ← scanstring s;
              let pairs := <[key := value]> pairs in
              match skip_whitespace s with
              | String nextchar s =>
                  if (N_of_ascii nextchar =? 125)%N then Some (pairs, s)
                  else if (N_of_ascii nextchar =? 44)%N then
                    match skip_whitespace s with
                    | String q' s =>
                        if (N_of_ascii q' =? 34)%N
                        then object_members fuel' s pairs
                        else None
                    | "" => None
                    end
                  else None
              | "" => None
              end
          | "" => None
          end
      | "" => None
      end
  end.

(** [JSONObject], entered after the opening brace. *)
Definition JSONObject (s : string) : option (gmap pystr pystr * string) :=
  match skip_whitespace s with
  | String nextchar s' =>
      if (N_of_ascii nextchar =? 125)%N then Some (∅, s')
      else if (N_of_ascii nextchar =? 34)%N
      then object_members (String.length s') s' ∅
      else None
  | "" => None
  end.

(** [json.loads]: leading whitespace, one object, trailing whitespace. *)
Definition loads (s : string) : option (gmap pystr pystr) :=
  match skip_whitespace s with
  | String c s' =>
      if (N_of_ascii c =? 123)%N then
        '(obj, rest) ← JSONObject s';
        match skip_whitespace rest with
        | "" => Some obj
        | _ => None
        end
      else None
  | "" => None
  end.

(** [dict(pairs)]: the dictionary a list of items denotes. *)
Definition dict (items : list (pystr * pystr)) : gmap pystr pystr :=
  foldl (λ m kv, <[kv.1 := kv.2]> m) ∅ items.

(** A Unicode scalar value: a code point that is not a surrogate. The
    string fields of a protocol buffer hold nothing else, since they are
    kept as UTF-8. *)
Definition unicode_scalar (c : N) : Prop :=
  (c < 1114112)%N ∧ ¬ (55296 ≤ c ≤ 57343)%N.

Definition unicode_text (s : pystr) : Prop := Forall unicode_scalar s.

(** Text made of the characters from space to tilde only. *)
Definition printable_ascii (s : string) : Prop :=
  Forall (λ c, (32 ≤ N_of_ascii c ≤ 126)%N) (list_ascii_of_string s).

End Json.

(** ** Exceptions, outcomes and the platform *)

(** Exceptions that come out of a call into the platform: the file system
    behind [fileio] and [io_utils], [tempfile], the model archiver. None of
    them is a [RuntimeError] or a [DoesNotExistException]. *)
Inductive platform_exn :=
| FileNotFoundError
| FileExistsError
| IsADirectoryError
| NotADirectoryError
| PermissionError
| ModelArchiverError.

(** What a call of this module can raise. [Propagated] is an exception of a
    platform call, which the module never catches. [Dangling] is not a
    Python exception: it is the outcome of reading an address that holds no
    object, which no Python reference does. *)
Inductive exn :=
| RuntimeError (msg : string)
| DoesNotExistException (msg : string)
| ValueError (msg : string)
| IndexError
| KeyError (key : string)
| JSONDecodeError
| Propagated (e : platform_exn)
| Dangling.

Inductive outcome (A : Type) :=
| Return (a : A)
| Raise (e : exn).
Arguments Return {A} a.
Arguments Raise {A} e.

(** The answer of a platform call. *)
Inductive answer (A : Type) :=
| Done (a : A)
| Failed (e : platform_exn).
Arguments Done {A} a.
Arguments Failed {A} e.

(** [class TorchModelArchiver(BaseModel)] *)
Record TorchModelArchiver := {
  tma_model_name : string;
  tma_serialized_file : string;
  tma_model_file : string;
  tma_handler : string;
  tma_export_path : string;
  tma_extra_files : option (list string);
  tma_version : option string;
  tma_requirements_file : option string;
  tma_runtime : option string;
  tma_force : option bool;
  tma_archive_format : option string
}.

(** The calls that leave the module, over a world [W] they act on. The
    functions of [zenml.io.fileio] and [zenml.utils.io_utils] are not
    among the sources at hand, and [tempfile] and the model archiver are
    libraries; the functions of the module are embedded over any
    implementation of them, each call of which either completes or raises.
    [NamedTemporaryFile_write dir suffix text] is the block
    [with tempfile.NamedTemporaryFile(mode=..., suffix=suffix, dir=dir,
    delete=False) as f: f.write(text)] and answers [f.name];
    [fileio_open_read] is [with fileio.open(path, "r") as f] read to the end;
    [file_content] observes the text of a file, for the laws below. *)
Class Platform (W : Type) := {
  fileio_makedirs : string → W → answer unit * W;
  fileio_exists : string → W → bool;
  fileio_copy : string → string → W → answer unit * W;
  fileio_open_read : string → W → answer string * W;
  io_utils_copy_dir : string → string → W → answer unit * W;
  tempfile_mkdtemp : string → W → answer string * W;
  NamedTemporaryFile_write : option string → string → string → W → answer string * W;
  generate_manifest_json : TorchModelArchiver → W → answer string * W;
  package_model : TorchModelArchiver → string → W → answer unit * W;
  file_content : W → string → option string
}.

(** What the properties below assume of the platform: a completed copy
    had a file as its source, gives the destination its text and touches no
    other file; a temporary file holds what was written to it and takes the
    name of no existing file; a completed read answers the text of the
    file. *)
Class PlatformLaws (W : Type) `{Platform W} : Prop := {
  copy_content : ∀ src dst w w',
    fileio_copy src dst w = (Done (), w') →
    ∃ text, file_content w src = Some text ∧ file_content w' dst = Some text;
  copy_frame : ∀ src dst w w' p,
    fileio_copy src dst w = (Done (), w') → p ≠ dst →
    file_content w' p = file_content w p;
  temporary_content : ∀ dir suffix text w name w',
    NamedTemporaryFile_write dir suffix text w = (Done name, w') →
    file_content w' name = Some text;
  temporary_frame : ∀ dir suffix text w name w' p c,
    NamedTemporaryFile_write dir suffix text w = (Done name, w') →
    file_content w p = Some c → file_content w' p = Some c;
  open_read_content : ∀ p w text w',
    fileio_open_read p w = (Done text, w') →
    file_content w p = Some text
}.

(** ** kserve_step_utils.py *)
Module KServe.

(** [ml_metadata.proto.Value]: the member of the oneof that is set. *)
Inductive Value :=
| ValueNotSet
| IntValue (i : Z)
| DoubleValue (repr : string)
| StringValue (s : pystr).

(** [v.string_value]: the default [""] when another member is set. *)
Definition string_value (v : Value) : pystr :=
  match v with
  | StringValue s => s
  | _ => []
  end.

(** [ml_metadata.proto.Artifact], the fields the module touches. *)
Record Artifact := {
  uri : string;
  properties : gmap string Value
}.

(** [artifact.properties[key]]: a message map answers a default value for a
    key it lacks. *)
Definition properties_get (a : Artifact) (key : string) : Value :=
  default ValueNotSet (properties a !! key).

(** [artifact.properties[key].string_value = s], for [s] a string the
    field can hold, which is Unicode text: the properties below assume
    [Json.unicode_text] of what is assigned. *)
Definition properties_set_string (a : Artifact) (key : string) (s : pystr) : Artifact :=
  {| uri := uri a; properties := <[key := StringValue s]> (properties a) |}.

(** [KServeDeploymentConfig]: the fields the module reads or writes, and
    [other_fields] for the rest of the declaration, which is not in the
    sources at hand. *)
Record KServeDeploymentConfig (F : Type) := {
  model_uri : string;
  model_name : string;
  predictor : string;
  other_fields : F
}.
Arguments model_uri {F} _.
Arguments model_name {F} _.
Arguments predictor {F} _.
Arguments other_fields {F} _.

(** The object [o] after [o.model_uri = v]. *)
Definition with_model_uri {F} (o : KServeDeploymentConfig F) (v : string)
  : KServeDeploymentConfig F :=
  {| model_uri := v; model_name := model_name o; predictor := predictor o;
     other_fields := other_fields o |}.

(** [TorchServingParameters], the fields the module reads. *)
Record TorchServingParameters := {
  model_class : string;
  handler : string;
  model_version : option string;
  torch_config : option string
}.

(** [CustomDeployParameters]; the module only tests it against [None]. *)
Record CustomDeployParameters := {
  predict_function : string
}.

(** [KServeDeployerStepConfig]. [service_config] is a reference to a
    [KServeDeploymentConfig] object on the heap. *)
Record KServeDeployerStepConfig := {
  service_config : nat;
  torch_serve_paramters : option TorchServingParameters;
  custom_deploy_paramters : option CustomDeployParameters
}.

(** [context.stack.metadata_store.store], as the query the module makes. *)
Record Stack := {
  get_artifacts_by_uri : string → list Artifact
}.

Record StepContext := {
  stack : option Stack
}.

(** The state a call runs in: the platform's world, and the heap of
    [KServeDeploymentConfig] objects, addressed by position. *)
Record state (W F : Type) := {
  world : W;
  heap : list (KServeDeploymentConfig F)
}.
Arguments world {W F} _.
Arguments heap {W F} _.

Definition M (W F A : Type) : Type := state W F → outcome A * state W F.

Definition ret {W F A} (a : A) : M W F A := λ s, (Return a, s).

Definition raise {W F A} (e : exn) : M W F A := λ s, (Raise e, s).

Definition bind {W F A B} (m : M W F A) (k : A → M W F B) : M W F B :=
  λ s, match m s with
       | (Return a, s') => k a s'
       | (Raise e, s') => (Raise e, s')
       end.

#[local] Notation "x <- m ;; k" := (bind m (λ x, k))
  (at level 20, m at level 99, k at level 200, only parsing).
#[local] Notation "m ;; k" := (bind m (λ _, k))
  (at level 100, k at level 200, right associativity, only parsing).

(** A platform call: its exception, if any, propagates. *)
Definition call {W F A} (op : W → answer A * W) : M W F A :=
  λ s, match op (world s) with
       | (Done a, w) => (Return a, {| world := w; heap := heap s |})
       | (Failed e, w) => (Raise (Propagated e), {| world := w; heap := heap s |})
       end.

(** A query of the world. *)
Definition ask {W F A} (q : W → A) : M W F A := λ s, (Return (q (world s)), s).

(** Reading the object a reference points to. *)
Definition deref {W F} (l : nat) : M W F (KServeDeploymentConfig F) :=
  λ s, match heap s !! l with
       | Some o => (Return o, s)
       | None => (Raise Dangling, s)
       end.

(** [obj.copy()] of a pydantic model: a new object with the same fields. *)
Definition copy {W F} (l : nat) : M W F nat :=
  λ s, match heap s !! l with
       | Some o => (Return (length (heap s)),
                    {| world := world s; heap := heap s ++ [o] |})
       | None => (Raise Dangling, s)
       end.

(** [obj.model_uri = v] *)
Definition set_model_uri {W F} (l : nat) (v : string) : M W F unit :=
  λ s, match heap s !! l with
       | Some o =>
           (Return (),
            {| world := world s; heap := <[l := with_model_uri o v]> (heap s) |})
       | None => (Raise Dangling, s)
       end.

Definition ARTIFACT_FILE : string := "artifact.json".

Definition newline : string := String "010"%char "".

Definition quoted (s : string) : string :=
  String Json.dquote (s ++ String Json.dquote "").

Definition config_lines : list string :=
  [ "inference_address=http://0.0.0.0:8085";
    "management_address=http://0.0.0.0:8085";
    "metrics_address=http://0.0.0.0:8082";
    "grpc_inference_port=7070";
    "grpc_management_port=7071";
    "enable_metrics_api=true";
    "metrics_format=prometheus";
    "number_of_netty_threads=4";
    "job_queue_size=10";
    "enable_envvars_config=true";
    "install_py_dep_per_model=true";
    "model_store=/mnt/models/model-store" ].

(** The last line [generate_model_deployer_config] writes. *)
Definition model_snapshot (model_name : string) : string :=
  "model_snapshot={" ++ quoted "name" ++ ":" ++ quoted "startup.cfg" ++ ","
  ++ quoted "modelCount" ++ ":1," ++ quoted "models" ++ ":{"
  ++ quoted model_name ++ ":{" ++ quoted "1.0" ++ ":{"
  ++ quoted "defaultVersion" ++ ":true," ++ quoted "marName" ++ ":"
  ++ quoted (model_name ++ ".mar") ++ "," ++ quoted "minWorkers" ++ ":1,"
  ++ quoted "maxWorkers" ++ ":5," ++ quoted "batchSize" ++ ":1,"
  ++ quoted "maxBatchDelay" ++ ":10," ++ quoted "responseTimeout" ++ ":120}}}}".

Definition deployer_config_text (model_name : string) : string :=
  foldr (λ line acc, line ++ newline ++ acc) (model_snapshot model_name) config_lines.

(** [TorchModelArchiver(model_name=..., serialized_file=..., model_file=...,
    handler=..., export_path=..., version=...)]; the other fields take the
    defaults of the class. *)
Definition new_TorchModelArchiver
    (model_name serialized_file model_file handler export_path : string)
    (version : option string) : TorchModelArchiver :=
  {| tma_model_name := model_name;
     tma_serialized_file := serialized_file;
     tma_model_file := model_file;
     tma_handler := handler;
     tma_export_path := export_path;
     tma_extra_files := None;
     tma_version := version;
     tma_requirements_file := None;
     tma_runtime := Some "python";
     tma_force := None;
     tma_archive_format := Some "default" |}.

Section functions.
Context {W F : Type} `{Platform W}.

Definition generate_model_deployer_config (model_name directory : string)
  : M W F string :=
  call (NamedTemporaryFile_write (Some directory) ".properties"
          (deployer_config_text model_name)).

Definition save_to_json_zenml_artifact (served_model_uri : string)
    (artifact : Artifact) : M W F unit :=
  let data :=
    [ (str_of "datatype", string_value (properties_get artifact "datatype"));
      (str_of "materializer", string_value (properties_get artifact "materializer")) ] in
  f_name <- call (NamedTemporaryFile_write None ".json" (Json.dumps data)) ;;
  call (fileio_copy f_name (Py.os_path_join served_model_uri ARTIFACT_FILE)).

(** [data[key]] of the loaded dictionary. *)
Definition getitem (data : gmap pystr pystr) (key : string) : M W F pystr :=
  match data !! str_of key with
  | Some v => ret v
  | None => raise (KeyError key)
  end.

(** [load_from_json_zenml_artifact], lines 337 to 344: the artifact it
    rebuilds from the file. What follows in the source imports the two
    classes the artifact names and calls the materializer on it, which is
    the Python import system's work and is not embedded. *)
Definition load_from_json_zenml_artifact (model_file_dir : string)
  : M W F Artifact :=
  text <- call (fileio_open_read (Py.os_path_join model_file_dir ARTIFACT_FILE)) ;;
  match Json.loads text with
  | None => raise JSONDecodeError
  | Some artifact =>
      let model_artifact := {| uri := model_file_dir; properties := ∅ |} in
      datatype <- getitem artifact "datatype" ;;
      let model_artifact := properties_set_string model_artifact "datatype" datatype in
      materializer <- getitem artifact "materializer" ;;
      let model_artifact :=
        properties_set_string model_artifact "materializer" materializer in
      ret model_artifact
  end.

Definition prepare_service_config (model_uri output_artifact_uri : string)
    (config : KServeDeployerStepConfig) : M W F nat :=
  let served_model_uri := Py.os_path_join output_artifact_uri "kserve" in
  call (fileio_makedirs served_model_uri) ;;
  sc <- deref (service_config config) ;;
  served_model_uri <-
    (if String.eqb (predictor sc) "tensorflow" then
       call (io_utils_copy_dir model_uri (Py.os_path_join served_model_uri "1")) ;;
       ret served_model_uri
     else if String.eqb (predictor sc) "sklearn" then
       let model_uri := Py.os_path_join model_uri "model" in
       found <- ask (fileio_exists model_uri) ;;
       if negb found then
         raise (RuntimeError
                  ("Expected sklearn model artifact was not found at " ++ model_uri))
       else
         call (fileio_copy model_uri (Py.os_path_join served_model_uri "model.joblib")) ;;
         ret served_model_uri
     else ret model_uri) ;;
  service_config <- copy (service_config config) ;;
  set_model_uri service_config served_model_uri ;;
  ret service_config.

Definition prepare_torch_service_config (model_uri output_artifact_uri : string)
    (config : KServeDeployerStepConfig) : M W F nat :=
  let deployment_folder_uri := Py.os_path_join output_artifact_uri "kserve" in
  let served_model_uri := Py.os_path_join deployment_folder_uri "model-store" in
  let config_propreties_uri := Py.os_path_join deployment_folder_uri "config" in
  call (fileio_makedirs served_model_uri) ;;
  call (fileio_makedirs config_propreties_uri) ;;
  match torch_serve_paramters config with
  | None => raise (RuntimeError "No torch serve parameters provided")
  | Some params =>
      temp_dir <- call (tempfile_mkdtemp "zenml-pytorch-temp-") ;;
      let tmp_model_uri := Py.os_path_join temp_dir "mnist.pt" in
      call (fileio_copy (model_uri ++ "/checkpoint.pt") tmp_model_uri) ;;
      sc <- deref (service_config config) ;;
      let torch_archiver_args :=
        new_TorchModelArchiver (model_name sc) tmp_model_uri (model_class params)
          (handler params) temp_dir (model_version params) in
      manifest <- call (generate_manifest_json torch_archiver_args) ;;
      call (package_model torch_archiver_args manifest) ;;
      let archived_model_uri := Py.os_path_join temp_dir (model_name sc ++ ".mar") in
      found <- ask (fileio_exists archived_model_uri) ;;
      if negb found then
        raise (RuntimeError
                 ("Expected torch archived model artifact was not found at "
                  ++ archived_model_uri))
      else
        call (fileio_copy archived_model_uri
                (Py.os_path_join served_model_uri (model_name sc ++ ".mar"))) ;;
        if Py.truthy (torch_config params) then
          call (fileio_copy (default "" (torch_config params))
                  (Py.os_path_join config_propreties_uri "config.properties"))
        else
          config_file_uri <- generate_model_deployer_config (model_name sc) temp_dir ;;
          call (fileio_copy config_file_uri
                  (Py.os_path_join config_propreties_uri "config.properties"))
  end ;;
  service_config <- copy (service_config config) ;;
  set_model_uri service_config deployment_folder_uri ;;
  ret service_config.

Definition prepare_custom_service_config (model_uri output_artifact_uri : string)
    (config : KServeDeployerStepConfig) (context : StepContext) : M W F nat :=
  match custom_deploy_paramters config with
  | None => raise (RuntimeError "No custom deploy parameters provided")
  | Some _ =>
      let served_model_uri := Py.os_path_join output_artifact_uri "kserve" in
      call (fileio_makedirs served_model_uri) ;;
      call (io_utils_copy_dir model_uri served_model_uri) ;;
      match stack context with
      | None =>
          raise (DoesNotExistException
                   ("No active stack is available. "
                    ++ "Please make sure that you have registered and set a stack."))
      | Some stack =>
          let artifact := get_artifacts_by_uri stack model_uri in
          match artifact with
          | [] => raise IndexError
          | artifact_0 :: _ =>
              save_to_json_zenml_artifact served_model_uri artifact_0 ;;
              service_config <- copy (service_config config) ;;
              set_model_uri service_config served_model_uri ;;
              ret service_config
          end
      end
  end.

(** *** What the properties speak of *)

(** The calls of [prepare_torch_service_config] up to and including the
    model archiver have all completed, in the temporary directory
    [temp_dir], and have left the world [w]. *)
Definition archiver_ran (model_uri output_artifact_uri : string)
    (config : KServeDeployerStepConfig) (sc : KServeDeploymentConfig F)
    (s : state W F) (temp_dir : string) (w : W) : Prop :=
  ∃ params w1 w2 w3 w4 manifest w5,
    torch_serve_paramters config = Some params
    ∧ fileio_makedirs (output_artifact_uri </> "kserve" </> "model-store") (world s)
      = (Done (), w1)
    ∧ fileio_makedirs (output_artifact_uri </> "kserve" </> "config") w1 = (Done (), w2)
    ∧ tempfile_mkdtemp "zenml-pytorch-temp-" w2 = (Done temp_dir, w3)
    ∧ fileio_copy (model_uri ++ "/checkpoint.pt") (temp_dir </> "mnist.pt") w3
      = (Done (), w4)
    ∧ generate_manifest_json
        (new_TorchModelArchiver (model_name sc) (temp_dir </> "mnist.pt")
           (model_class params) (handler params) temp_dir (model_version params)) w4
      = (Done manifest, w5)
    ∧ package_model
        (new_TorchModelArchiver (model_name sc) (temp_dir </> "mnist.pt")
           (model_class params) (handler params) temp_dir (model_version params))
        manifest w5
      = (Done (), w).

(** The source of [config.properties] is ready: it is the file the
    parameters name and nothing happens, or it is [properties_src], written
    by [generate_model_deployer_config] in a step from [w] to [w']. *)
Definition properties_prepared (params : TorchServingParameters)
    (sc : KServeDeploymentConfig F) (temp_dir : string) (w : W)
    (properties_src : string) (w' : W) : Prop :=
  if Py.truthy (torch_config params)
  then torch_config params = Some properties_src ∧ w' = w
  else NamedTemporaryFile_write (Some temp_dir) ".properties"
         (deployer_config_text (model_name sc)) w = (Done properties_src, w').

(** [loc] holds, in [s'], a copy of the object [config.service_config] held
    in [s] that differs from it in [model_uri] at most, and every object of
    [s], the one passed in among them, is in [s'] as it was. *)
Definition only_model_uri_reassigned (config : KServeDeployerStepConfig)
    (s : state W F) (loc : nat) (s' : state W F) : Prop :=
  ∃ sc sc',
    heap s !! service_config config = Some sc
    ∧ heap s' !! loc = Some sc'
    ∧ loc ≠ service_config config
    ∧ model_name sc' = model_name sc
    ∧ predictor sc' = predictor sc
    ∧ other_fields sc' = other_fields sc
    ∧ ∀ i o, heap s !! i = Some o → heap s' !! i = Some o.

(** A computation leaves the heap of objects as it finds it, whatever its
    outcome; or at least when it raises. *)
Definition keeps_heap {A} (m : M W F A) : Prop :=
  ∀ s o s', m s = (o, s') → heap s' = heap s.

Definition keeps_heap_on_raise {A} (m : M W F A) : Prop :=
  ∀ s e s', m s = (Raise e, s') → heap s' = heap s.

End functions.

End KServe.

(** ** An in-memory platform

    Files are a finite map from path to text, directories a finite set of
    paths. A file is written into a directory that exists. Temporary names
    are numbered; a name that is taken makes the call fail, as [tempfile]
    does when it runs out of candidates. The archiver writes
    [export_path/model_name.mar] from the serialized file, or leaves nothing
    behind when [archiver_exports] is off. *)
Module MemFS.

Record fs := {
  files : gmap string string;
  dirs : gset string;
  serial : nat;
  archiver_exports : bool
}.

Definition present (p : string) (w : fs) : bool :=
  bool_decide (is_Some (files w !! p)) || bool_decide (p ∈ dirs w).

Definition isdir (p : string) (w : fs) : bool := bool_decide (p ∈ dirs w).

(** [p[:p.rfind("/") + 1]] *)
Fixpoint up_to_last_slash (p : string) : string :=
  match p with
  | "" => ""
  | String a p' => if Py.contains p "/" then String a (up_to_last_slash p') else ""
  end.

(** [os.path.dirname] *)
Definition dirname (p : string) : string :=
  let head := up_to_last_slash p in
  match Py.rstrip head "/" with
  | "" => head
  | stripped => stripped
  end.

Definition makedirs (p : string) (w : fs) : answer unit * fs :=
  if bool_decide (is_Some (files w !! p)) then (Failed FileExistsError, w)
  else (Done (),
        {| files := files w; dirs := {[p]} ∪ dirs w; serial := serial w;
           archiver_exports := archiver_exports w |}).

Definition write_file (p text : string) (w : fs) : fs :=
  {| files := <[p := text]> (files w); dirs := dirs w; serial := serial w;
     archiver_exports := archiver_exports w |}.

(** [fileio.copy(src, dst)], which does not overwrite: the destination is
    tested first, then the source is read and the destination written. *)
Definition copyfile (src dst : string) (w : fs) : answer unit * fs :=
  if present dst w then (Failed FileExistsError, w)
  else match files w !! src with
       | None =>
           if isdir src w then (Failed IsADirectoryError, w)
           else (Failed FileNotFoundError, w)
       | Some text =>
           if isdir (dirname dst) w then (Done (), write_file dst text w)
           else (Failed FileNotFoundError, w)
       end.

Definition open_read (p : string) (w : fs) : answer string * fs :=
  match files w !! p with
  | Some text => (Done text, w)
  | None =>
      if isdir p w then (Failed IsADirectoryError, w)
      else (Failed FileNotFoundError, w)
  end.

Fixpoint strip_prefix (p s : string) : option string :=
  match p, s with
  | "", _ => Some s
  | String a p', String b s' => if Ascii.eqb a b then strip_prefix p' s' else None
  | _, "" => None
  end.

(** The files below [src], renamed below [dst]. *)
Definition moved (src dst : string) (w : fs) : list (string * string) :=
  omap (λ '(p, text),
          match strip_prefix (Py.os_path_join src "") p with
          | Some rel => Some (Py.os_path_join dst rel, text)
          | None => None
          end)
       (map_to_list (files w)).

Definition copy_dir (src dst : string) (w : fs) : answer unit * fs :=
  if bool_decide (is_Some (files w !! src)) then (Failed NotADirectoryError, w)
  else if negb (isdir src w) then (Failed FileNotFoundError, w)
  else if existsb (λ '(p, _), present p w) (moved src dst w)
       then (Failed FileExistsError, w)
  else (Done (),
        {| files := foldr (λ '(p, text) m, <[p := text]> m) (files w) (moved src dst w);
           dirs := {[dst]} ∪ dirs w; serial := serial w;
           archiver_exports := archiver_exports w |}).

Definition temporary_name (dir prefix suffix : string) (w : fs) : string :=
  Py.os_path_join dir (prefix ++ Py.repeat_char "0" (serial w) ++ suffix).

Definition mkdtemp (prefix : string) (w : fs) : answer string * fs :=
  let name := temporary_name "/tmp" prefix "" w in
  if negb (isdir "/tmp" w) then (Failed FileNotFoundError, w)
  else if present name w then (Failed FileExistsError, w)
  else (Done name,
        {| files := files w; dirs := {[name]} ∪ dirs w; serial := S (serial w);
           archiver_exports := archiver_exports w |}).

Definition temporary_write (dir : option string) (suffix text : string) (w : fs)
  : answer string * fs :=
  let name := temporary_name (default "/tmp" dir) "tmp" suffix w in
  if negb (isdir (default "/tmp" dir) w) then (Failed FileNotFoundError, w)
  else if present name w then (Failed FileExistsError, w)
  else (Done name,
        {| files := <[name := text]> (files w); dirs := dirs w;
           serial := S (serial w); archiver_exports := archiver_exports w |}).

Definition manifest_json (args : TorchModelArchiver) (w : fs) : answer string * fs :=
  (Done ("manifest " ++ tma_model_name args ++ " " ++ tma_handler args), w).

Definition archive (args : TorchModelArchiver) (manifest : string) (w : fs)
  : answer unit * fs :=
  match files w !! tma_serialized_file args with
  | None => (Failed ModelArchiverError, w)
  | Some weights =>
      if archiver_exports w then
        (Done (),
         write_file (tma_export_path args ++ "/" ++ tma_model_name args ++ ".mar")
                    (manifest ++ weights) w)
      else (Done (), w)
  end.

#[global] Instance platform : Platform fs := {|
  fileio_makedirs := makedirs;
  fileio_exists := present;
  fileio_copy := copyfile;
  fileio_open_read := open_read;
  io_utils_copy_dir := copy_dir;
  tempfile_mkdtemp := mkdtemp;
  NamedTemporaryFile_write := temporary_write;
  generate_manifest_json := manifest_json;
  package_model := archive;
  file_content := λ w p, files w !! p
|}.

(** A world with a trained PyTorch model and a trained sklearn model in the
    artifact store. *)
Definition store : fs := {|
  files := <["/store/torch/checkpoint.pt" := "weights"]>
             (<["/store/sk/model" := "pickle"]> ∅);
  dirs := {["/store/torch"]} ∪ {["/store/sk"]} ∪ {["/tmp"]};
  serial := 0;
  archiver_exports := true
|}.

(** The same store with an archiver that completes and leaves no package. *)
Definition store_without_export : fs := {|
  files := files store;
  dirs := dirs store;
  serial := serial store;
  archiver_exports := false
|}.

Definition deployment (p : string) : KServe.KServeDeploymentConfig nat := {|
  KServe.model_uri := "";
  KServe.model_name := "mnist";
  KServe.predictor := p;
  KServe.other_fields := 1
|}.

Definition start (p : string) : KServe.state fs nat :=
  {| KServe.world := store; KServe.heap := [deployment p] |}.

Definition torch_parameters (cfg : option string) : KServe.TorchServingParameters := {|
  KServe.model_class := "steps/net.py";
  KServe.handler := "steps/handler.py";
  KServe.model_version := Some "1.0";
  KServe.torch_config := cfg
|}.

Definition step_config (t : option KServe.TorchServingParameters)
    (c : option KServe.CustomDeployParameters) : KServe.KServeDeployerStepConfig := {|
  KServe.service_config := 0;
  KServe.torch_serve_paramters := t;
  KServe.custom_deploy_paramters := c
|}.

Definition trained : KServe.Artifact := {|
  KServe.uri := "/store/torch";
  KServe.properties :=
    <["datatype" := KServe.StringValue (str_of "torch.nn.modules.module.Module")]>
      (<["materializer" := KServe.StringValue
           (str_of "zenml.integrations.pytorch.materializers.PyTorchMaterializer")]> ∅)
|}.

Definition active_stack : KServe.Stack := {|
  KServe.get_artifacts_by_uri := λ u, if String.eqb u "/store/torch" then [trained] else []
|}.

(** A step configured for TorchServe with a properties file of the user's,
    which the store does not hold. *)
Definition torch_config_given : KServe.KServeDeployerStepConfig :=
  step_config (Some (torch_parameters (Some "/store/torch/config.properties"))) None.

(** A step configured for TorchServe that leaves the properties file to be
    generated. *)
Definition torch_config_generated : KServe.KServeDeployerStepConfig :=
  step_config (Some (torch_parameters None)) None.

Definition custom_config : KServe.KServeDeployerStepConfig :=
  step_config None (Some {| KServe.predict_function := "steps.predict" |}).

(** The worlds the TorchServe preparation goes through from [store]. *)
Definition folders_made : fs :=
  (makedirs "/out/kserve/config" (makedirs "/out/kserve/model-store" store).2).2.

Definition checkpoint_fetched : fs :=
  (copyfile "/store/torch/checkpoint.pt" "/tmp/zenml-pytorch-temp-/mnist.pt"
     (mkdtemp "zenml-pytorch-temp-" folders_made).2).2.

Definition archiver_args : TorchModelArchiver :=
  KServe.new_TorchModelArchiver "mnist" "/tmp/zenml-pytorch-temp-/mnist.pt"
    "steps/net.py" "steps/handler.py" "/tmp/zenml-pytorch-temp-" (Some "1.0").

Definition archived : fs :=
  (archive archiver_args "manifest mnist steps/handler.py" checkpoint_fetched).2.

Definition package_stored : fs :=
  (copyfile "/tmp/zenml-pytorch-temp-/mnist.mar" "/out/kserve/model-store/mnist.mar"
     archived).2.

Definition properties_generated : fs :=
  (temporary_write (Some "/tmp/zenml-pytorch-temp-") ".properties"
     (KServe.deployer_config_text "mnist") package_stored).2.

(** The state the TorchServe preparation leaves. *)
Definition torch_served : KServe.state fs nat :=
  (KServe.prepare_torch_service_config "/store/torch" "/out" torch_config_generated
     (start "pytorch")).2.

(** The state the preparation of the sklearn model leaves. *)
Definition sklearn_served : KServe.state fs nat :=
  (KServe.prepare_service_config "/store/sk" "/out" (step_config None None)
     (start "sklearn")).2.

(** The state once the folder to serve from is made, and the state after
    the metadata of [trained] is saved there. *)
Definition folder_made : KServe.state fs nat :=
  {| KServe.world := (makedirs "/out/kserve" store).2;
     KServe.heap := [deployment "custom"] |}.

Definition saved : KServe.state fs nat :=
  (KServe.save_to_json_zenml_artifact "/out/kserve" trained folder_made).2.

(** The state the custom preparation leaves, with the active stack. *)
Definition custom_served : KServe.state fs nat :=
  (KServe.prepare_custom_service_config "/store/torch" "/out" custom_config
     {| KServe.stack := Some active_stack |} (start "custom")).2.

(** An artifact without properties, and the state after its metadata is
    saved. *)
Definition bare : KServe.Artifact :=
  {| KServe.uri := "/store/sk"; KServe.properties := ∅ |}.

Definition bare_saved : KServe.state fs nat :=
  (KServe.save_to_json_zenml_artifact "/out/kserve" bare folder_made).2.

(** A world whose metadata file names the datatype and nothing else. *)
Definition half_written : KServe.state fs nat :=
  {| KServe.world :=
       write_file "/out/kserve/artifact.json"
         (Json.dumps [(str_of "datatype", str_of "torch.nn.modules.module.Module")])
         (makedirs "/out/kserve" store).2;
     KServe.heap := [] |}.

End MemFS.

(** ** The container registry

    [zenml.container_registries.BaseContainerRegistry] is not among the
    sources at hand; its unit tests are. *)
Module Registry.

(** Modelled from the spec: the fields of [BaseContainerRegistry] that the
    unit tests pass to its constructor; the declaration of the class is
    missing. *)
Record BaseContainerRegistry := {
  name : string;
  uri : string;
  username : option string;
  password : option string;
  authentication_secret : option string
}.

(** Modelled from the spec: the constructor of [BaseContainerRegistry],
    whose declaration is missing. The spec names a trailing-slash
    normalization of a registry URI, and the test
    [test_base_container_registry_removes_trailing_slashes] expects the
    [uri] given as [test/] to be stored as [test]; the stored field is the
    argument passed through [rstrip] on the slash. The credential fields
    default to [None]. *)
Definition new (name uri : string) (username password authentication_secret : option string)
  : BaseContainerRegistry :=
  {| name := name; uri := Py.rstrip uri "/"; username := username;
     password := password; authentication_secret := authentication_secret |}.

(** Modelled from the spec: the property [requires_authentication], which is
    missing. The spec names an authentication-required computation from
    credential/secret fields. The test file holds both sides of a merge: on
    one, a registry needs authentication once a username and a password are
    both set and not with one of them alone; on the other, once an
    authentication secret is named. The model is the disjunction, with
    Python's truthiness of an optional string. *)
Definition requires_authentication (r : BaseContainerRegistry) : bool :=
  (Py.truthy (username r) && Py.truthy (password r))
  || Py.truthy (authentication_secret r).

(** Modelled from the spec: the method [push_image], which is missing. The
    spec names a URI-prefix enforcement before allowing an image push, and
    the test expects a [ValueError] for an image outside the registry and
    the push to go through otherwise. [pushed] is the list of images handed
    to [docker_utils.push_docker_image], which the test replaces by a
    mock. The text of the error is not known; the exception carries the
    name of the image. *)
Definition push_image (r : BaseContainerRegistry) (image_name : string)
    (pushed : list string) : outcome unit * list string :=
  if negb (Py.startswith image_name (uri r)) then (Raise (ValueError image_name), pushed)
  else (Return (), (pushed ++ [image_name])%list).

(** A credential field is provided when it holds a string that is not
    empty: what Python takes for true. *)
Definition provided (o : option string) : Prop := ∃ s, o = Some s ∧ s ≠ "".

End Registry.

(** * Properties *)

(** ** Strings *)

Lemma append_nil (b : string) : "" ++ b = b.
Proof. reflexivity. Qed.

Lemma append_cons (x : ascii) (a b : string) : String x a ++ b = String x (a ++ b).
Proof. reflexivity. Qed.

Lemma append_assoc (a b c : string) : (a ++ b) ++ c = a ++ (b ++ c).
Proof.
  induction a as [|x a IH]; rewrite ?append_cons, ?append_nil; [done | by f_equal].
Qed.

(** Appends pushed to the right and below the constructors. *)
Ltac norm_append :=
  repeat first [rewrite append_assoc | rewrite append_cons | rewrite append_nil].

Lemma append_length (a b : string) :
  String.length (a ++ b) = (String.length a + String.length b)%nat.
Proof.
  induction a as [|x a IH]; norm_append; [done | by cbn [String.length]; rewrite IH].
Qed.

(** ** json: what [dumps] writes, [loads] reads back *)
Section json_round_trip.
Import Json.

Lemma hex_value_digit (d : N) : (d < 16)%N → hex_value (hex_digit d) = Some d.
Proof.
  intros Hd.
  destruct d as [|p]; [reflexivity|].
  do 4 (try destruct p as [p|p|]); solve [reflexivity | exfalso; lia].
Qed.

Lemma testbit_above (y k n : N) :
  (y < 2 ^ k)%N → (k ≤ n)%N → N.testbit y n = false.
Proof.
  intros Hy Hn. destruct (N.eq_dec y 0%N) as [->|Hy0]; [apply N.bits_0|].
  apply N.bits_above_log2. apply N.log2_lt_pow2 in Hy; lia.
Qed.

Lemma land_shiftl_low (x y k : N) :
  (y < 2 ^ k)%N → N.land (N.shiftl x k) y = 0%N.
Proof.
  intros Hy. apply N.bits_inj_0. intros n. rewrite N.land_spec.
  destruct (N.lt_ge_cases n k) as [Hn|Hn].
  - by rewrite N.shiftl_spec_low.
  - rewrite (testbit_above y k n) by done. apply andb_false_r.
Qed.

Lemma lor_shiftl_low (x y k : N) :
  (y < 2 ^ k)%N → N.lor (N.shiftl x k) y = (x * 2 ^ k + y)%N.
Proof.
  intros Hy. rewrite <- N.shiftl_mul_pow2.
  rewrite <- N.lxor_lor by by apply land_shiftl_low.
  symmetry. apply N.add_nocarry_lxor. by apply land_shiftl_low.
Qed.

Lemma hex_split (n : N) :
  (n < 65536)%N →
  ((((n / 4096 mod 16) * 16 + (n / 256) mod 16) * 16 + (n / 16) mod 16) * 16 + n mod 16 = n)%N.
Proof.
  intros Hn.
  pose proof (N.div_mod n 16 ltac:(done)) as E0.
  pose proof (N.div_mod (n / 16) 16 ltac:(done)) as E1.
  pose proof (N.div_mod (n / 256) 16 ltac:(done)) as E2.
  rewrite (N.Div0.div_div n 16 16) in E1.
  rewrite (N.Div0.div_div n 256 16) in E2.
  change (16 * 16)%N with 256%N in E1. change (256 * 16)%N with 4096%N in E2.
  assert (n / 4096 < 16)%N as H3 by (apply N.Div0.div_lt_upper_bound; lia).
  rewrite (N.mod_small (n / 4096) 16) by done.
  lia.
Qed.

Lemma decode_format (n : N) :
  (n < 65536)%N →
  decode_uXXXX (hex_digit (N.shiftr n 12 mod 16)) (hex_digit (N.shiftr n 8 mod 16))
               (hex_digit (N.shiftr n 4 mod 16)) (hex_digit (n mod 16)) = Some n.
Proof.
  intros Hn. unfold decode_uXXXX.
  rewrite !hex_value_digit by (apply N.mod_lt; done). simpl.
  rewrite !lor_shiftl_low by (apply N.mod_lt; done).
  rewrite !N.shiftr_div_pow2.
  change (2 ^ 12)%N with 4096%N. change (2 ^ 8)%N with 256%N. change (2 ^ 4)%N with 16%N.
  f_equal. by apply hex_split.
Qed.

Lemma scan_plain (c : ascii) (s : string) :
  N_of_ascii c ≠ 34%N → N_of_ascii c ≠ 92%N → (32 ≤ N_of_ascii c)%N →
  scanstring (String c s) = push (N_of_ascii c) (scanstring s).
Proof.
  intros H1 H2 H3. cbn [scanstring].
  rewrite (proj2 (N.eqb_neq _ _) H1), (proj2 (N.eqb_neq _ _) H2).
  by rewrite (proj2 (N.ltb_ge _ _) H3).
Qed.

Lemma scan_escape (esc : ascii) (ch : N) (s : string) :
  N_of_ascii esc ≠ 117%N → BACKSLASH esc = Some ch →
  scanstring (String backslash (String esc s)) = push ch (scanstring s).
Proof.
  intros H1 H2. cbn [scanstring].
  change (N_of_ascii backslash =? 34)%N with false.
  change (N_of_ascii backslash =? 92)%N with true. cbn match.
  by rewrite (proj2 (N.eqb_neq _ _) H1), H2.
Qed.

Lemma scan_u (a b c d : ascii) (uni : N) (s : string) :
  decode_uXXXX a b c d = Some uni → is_high_surrogate uni = false →
  scanstring (String backslash (String "u" (String a (String b (String c (String d s))))))
  = push uni (scanstring s).
Proof.
  intros H1 H2. cbn [scanstring].
  change (N_of_ascii backslash =? 34)%N with false.
  change (N_of_ascii backslash =? 92)%N with true.
  change (N_of_ascii "u" =? 117)%N with true. cbn match.
  by rewrite H1, H2.
Qed.

Lemma scan_pair (a b c d a2 b2 c2 d2 : ascii) (uni uni2 : N) (s : string) :
  decode_uXXXX a b c d = Some uni → is_high_surrogate uni = true →
  decode_uXXXX a2 b2 c2 d2 = Some uni2 → is_low_surrogate uni2 = true →
  scanstring (String backslash (String "u" (String a (String b (String c (String d
    (String backslash (String "u" (String a2 (String b2 (String c2 (String d2 s))))))))))))
  = push (join_surrogates uni uni2) (scanstring s).
Proof.
  intros H1 H2 H3 H4. cbn [scanstring].
  change (N_of_ascii backslash =? 34)%N with false.
  change (N_of_ascii backslash =? 92)%N with true.
  change (N_of_ascii "u" =? 117)%N with true. cbn match. cbn [andb].
  by rewrite H1, H2, H3, H4.
Qed.

Lemma is_high_scalar (c : N) : unicode_scalar c → is_high_surrogate c = false.
Proof.
  intros [_ Hc]. unfold is_high_surrogate.
  destruct (N.leb_spec 55296 c), (N.leb_spec c 56319); simpl; try done.
  exfalso. apply Hc. lia.
Qed.

Lemma replace_pair (c : N) :
  (65536 ≤ c)%N → (c < 1114112)%N →
  ∃ hi lo, replace c = u_escape hi ++ u_escape lo
    ∧ (hi < 65536)%N ∧ (lo < 65536)%N
    ∧ is_high_surrogate hi = true ∧ is_low_surrogate lo = true
    ∧ join_surrogates hi lo = c.
Proof.
  intros Hlo Hhi.
  exists (55296 + (c - 65536) / 1024)%N, (56320 + (c - 65536) mod 1024)%N.
  assert ((c - 65536) / 1024 < 1024)%N as Hq
    by (apply N.Div0.div_lt_upper_bound; lia).
  assert ((c - 65536) mod 1024 < 1024)%N as Hr by (by apply N.mod_lt).
  pose proof (N.div_mod (c - 65536) 1024 ltac:(done)) as Hdm.
  split; [|generalize dependent ((c - 65536) / 1024)%N;
           generalize dependent ((c - 65536) mod 1024)%N; intros r Hr q Hq Hdm].
  { unfold replace.
    repeat match goal with
    | |- context [(c =? ?k)%N] => rewrite (proj2 (N.eqb_neq c k)) by lia
    end.
    rewrite (proj2 (N.ltb_ge c 65536)) by lia. cbv zeta.
    change 1023%N with (N.ones 10). rewrite !N.land_ones, N.shiftr_div_pow2.
    change (2 ^ 10)%N with 1024%N.
    rewrite (N.mod_small ((c - 65536) / 1024) 1024) by done.
    change 55296%N with (N.shiftl 54 10). change 56320%N with (N.shiftl 55 10).
    by rewrite !lor_shiftl_low by done. }
  repeat split; try lia.
  - unfold is_high_surrogate. apply andb_true_intro; split; apply N.leb_le; lia.
  - unfold is_low_surrogate. apply andb_true_intro; split; apply N.leb_le; lia.
  - unfold join_surrogates.
    replace (55296 + q - 55296)%N with q by lia.
    replace (56320 + r - 56320)%N with r by lia.
    rewrite lor_shiftl_low by done. change (2 ^ 10)%N with 1024%N. lia.
Qed.

Lemma scanstring_escape (s : pystr) (rest : string) :
  unicode_text s →
  scanstring (escape_ascii s ++ String dquote rest) = Some (s, rest).
Proof.
  induction 1 as [|c s Hc Hs IH]; [done|].
  cbn [escape_ascii]. rewrite append_assoc.
  destruct (ESCAPE_ASCII c) eqn:Hesc.
  - unfold replace.
    destruct (N.eqb_spec c 34) as [->|?];
      [norm_append; by rewrite scan_escape with (ch := 34%N), IH|].
    destruct (N.eqb_spec c 92) as [->|?];
      [norm_append; by rewrite scan_escape with (ch := 92%N), IH|].
    destruct (N.eqb_spec c 10) as [->|?];
      [norm_append; by rewrite scan_escape with (ch := 10%N), IH|].
    destruct (N.eqb_spec c 13) as [->|?];
      [norm_append; by rewrite scan_escape with (ch := 13%N), IH|].
    destruct (N.eqb_spec c 9) as [->|?];
      [norm_append; by rewrite scan_escape with (ch := 9%N), IH|].
    destruct (N.eqb_spec c 12) as [->|?];
      [norm_append; by rewrite scan_escape with (ch := 12%N), IH|].
    destruct (N.eqb_spec c 8) as [->|?];
      [norm_append; by rewrite scan_escape with (ch := 8%N), IH|].
    destruct (N.ltb_spec c 65536) as [Hlt|Hge].
    + unfold u_escape, format_04x. norm_append.
      rewrite (scan_u _ _ _ _ c) by (by apply decode_format || by apply is_high_scalar).
      by rewrite IH.
    + pose proof (replace_pair c Hge (proj1 Hc)) as (hi & lo & E & Hhi & Hlo & Hh & Hl & Hj).
      unfold replace in E.
      repeat match type of E with
      | context [(c =? ?k)%N] => rewrite (proj2 (N.eqb_neq c k)) in E by lia
      end.
      rewrite (proj2 (N.ltb_ge c 65536)) in E by lia. cbv zeta in E. rewrite E.
      unfold u_escape, format_04x. norm_append.
      rewrite (scan_pair _ _ _ _ _ _ _ _ hi lo) by (by apply decode_format || done).
      by rewrite IH, Hj.
  - unfold ESCAPE_ASCII in Hesc.
    apply orb_false_elim in Hesc as [Hesc Hrange].
    apply orb_false_elim in Hesc as [H92 H34].
    apply negb_false_iff, andb_prop in Hrange as [Hlo Hhi].
    apply N.eqb_neq in H92, H34. apply N.leb_le in Hlo, Hhi.
    norm_append.
    rewrite scan_plain; rewrite ?N_ascii_embedding by lia; try done.
    by rewrite IH.
Qed.

Lemma skip_whitespace_stop (c : ascii) (s : string) :
  is_whitespace c = false → skip_whitespace (String c s) = String c s.
Proof. intros Hc. cbn [skip_whitespace]. by rewrite Hc. Qed.

Lemma skip_whitespace_space (s : string) :
  skip_whitespace (String " " s) = skip_whitespace s.
Proof. reflexivity. Qed.

Lemma iterencode_items_length (first : bool) (items : list (pystr * pystr)) :
  (length items ≤ String.length (iterencode_items first items))%nat.
Proof.
  revert first. induction items as [|[k v] items IH]; intros first; [cbn; lia|].
  cbn [iterencode_items length]. rewrite !append_length.
  specialize (IH false). unfold encode_basestring_ascii at 1. cbn [String.length]. lia.
Qed.

Lemma object_members_items (items : list (pystr * pystr)) :
  ∀ (k v : pystr) (fuel : nat) (acc : gmap pystr pystr) (tail : string),
    unicode_text k → unicode_text v → Forall (λ kv, unicode_text kv.1 ∧ unicode_text kv.2) items →
    (length items < fuel)%nat →
    object_members fuel
      (escape_ascii k ++ String dquote
         (String ":" (String " "
            (encode_basestring_ascii v ++ iterencode_items false items
             ++ String "}" tail)))) acc
    = Some (foldl (λ m kv, <[kv.1 := kv.2]> m) (<[k := v]> acc) items, tail).
Proof.
  induction items as [|[k' v'] items IH]; intros k v fuel acc tail Hk Hv Hitems Hfuel;
    (destruct fuel as [|fuel]; [cbn in Hfuel; lia|]);
    cbn [object_members]; rewrite scanstring_escape by done; cbn [mbind option_bind];
    rewrite skip_whitespace_stop by done;
    change (N_of_ascii ":" =? 58)%N with true; cbn [negb];
    rewrite skip_whitespace_space;
    unfold encode_basestring_ascii at 1; norm_append;
    rewrite skip_whitespace_stop by done;
    change (N_of_ascii dquote =? 34)%N with true; cbn [negb];
    rewrite scanstring_escape by done; cbn [mbind option_bind];
    cbn [iterencode_items]; norm_append.
  - by rewrite skip_whitespace_stop by done.
  - rewrite skip_whitespace_stop by done.
    change (N_of_ascii "," =? 125)%N with false.
    change (N_of_ascii "," =? 44)%N with true. cbn match.
    rewrite skip_whitespace_space.
    unfold encode_basestring_ascii at 1. norm_append.
    rewrite skip_whitespace_stop by done.
    change (N_of_ascii dquote =? 34)%N with true. cbn match.
    inversion Hitems as [|? ? [Hk' Hv'] Hrest]; subst.
    rewrite IH; [done..|]. cbn [length] in Hfuel. lia.
Qed.

Lemma loads_dumps (items : list (pystr * pystr)) :
  Forall (λ kv, unicode_text kv.1 ∧ unicode_text kv.2) items →
  loads (dumps items) = Some (dict items).
Proof.
  intros Hitems. destruct items as [|[k v] items]; [done|].
  inversion Hitems as [|? ? [Hk Hv] Hrest]; subst.
  unfold dumps, loads. cbn [iterencode_items].
  unfold encode_basestring_ascii at 1. norm_append.
  rewrite skip_whitespace_stop by done.
  change (N_of_ascii "{" =? 123)%N with true. cbn match.
  unfold JSONObject.
  rewrite skip_whitespace_stop by done.
  change (N_of_ascii dquote =? 125)%N with false.
  change (N_of_ascii dquote =? 34)%N with true. cbn match.
  rewrite object_members_items; [done..|].
  rewrite append_length. cbn [String.length]. rewrite !append_length.
  pose proof (iterencode_items_length false items). lia.
Qed.

(** Why the text has to be free of surrogates: a high and a low surrogate
    written one after the other are read back as the one character they
    encode together. *)
Example surrogates_are_joined :
  scanstring (escape_ascii [55357%N; 56832%N] ++ String dquote "")
  = Some ([128512%N], "").
Proof. reflexivity. Qed.

Example escapes_read_back :
  scanstring (escape_ascii [104%N; 233%N; 10%N; 128512%N; 34%N; 92%N] ++ String dquote "")
  = Some ([104%N; 233%N; 10%N; 128512%N; 34%N; 92%N], "").
Proof. reflexivity. Qed.

End json_round_trip.

(** ** Python strings *)
Section python_strings.
Import Py.

Lemma startswith_spec (s p : string) : startswith s p = true ↔ ∃ t, s = p ++ t.
Proof.
  unfold startswith. revert s. induction p as [|a p IH]; intros s.
  - split; [by exists s | by destruct s].
  - destruct s as [|b s]; cbn [String.prefix].
    + split; [done | by intros [t Ht]].
    + destruct (ascii_dec a b) as [->|Hab].
      * rewrite IH. split; intros [t Ht]; exists t.
        -- by rewrite append_cons, Ht.
        -- rewrite append_cons in Ht. by injection Ht.
      * split; [done|]. intros [t Ht]. rewrite append_cons in Ht. by injection Ht.
Qed.

Lemma rstrip_trailing (s : string) (c : ascii) :
  ∃ n, s = rstrip s c ++ repeat_char c n.
Proof.
  induction s as [|a s [n IH]]; [by exists 0%nat|]. cbn [rstrip].
  destruct (rstrip s c) as [|b r] eqn:E.
  - rewrite append_nil in IH. destruct (Ascii.eqb_spec a c) as [->|Hac].
    + exists (S n). by rewrite append_nil, IH at 1.
    + exists n. by rewrite append_cons, append_nil, IH at 1.
  - exists n. by rewrite append_cons, <- IH.
Qed.

Lemma rstrip_stripped (s : string) (c : ascii) : endswith (rstrip s c) c = false.
Proof.
  induction s as [|a s IH]; [done|]. cbn [rstrip].
  destruct (rstrip s c) as [|b r] eqn:E; [|done].
  destruct (Ascii.eqb a c) eqn:Hac; [done|]. by cbn [endswith].
Qed.

Lemma rstrip_unchanged (s : string) (c : ascii) :
  endswith s c = false → rstrip s c = s.
Proof.
  induction s as [|a s IH]; [done|]. intros He. cbn [rstrip].
  destruct s as [|b s].
  - cbn [rstrip]. cbn [endswith] in He. by rewrite He.
  - rewrite IH by done. done.
Qed.

(** The join of a directory and a relative name, in the usual case of a
    directory that is not empty and ends in no slash. *)
Lemma os_path_join_relative (a b : string) :
  a ≠ "" → endswith a "/" = false → startswith b "/" = false →
  os_path_join a b = a ++ "/" ++ b.
Proof.
  intros Ha He Hb. unfold os_path_join. rewrite Hb, He.
  by destruct a.
Qed.

Example os_path_join_plain : os_path_join "/out" "kserve" = "/out/kserve".
Proof. reflexivity. Qed.

Example os_path_join_after_slash : os_path_join "/out/" "kserve" = "/out/kserve".
Proof. reflexivity. Qed.

Example os_path_join_empty : os_path_join "" "kserve" = "kserve".
Proof. reflexivity. Qed.

Example os_path_join_absolute : os_path_join "/out" "/tmp/model" = "/tmp/model".
Proof. reflexivity. Qed.

Example rstrip_all_trailing : rstrip "a/b///" "/" = "a/b".
Proof. reflexivity. Qed.

End python_strings.

(** ** The monad *)
Section monad_facts.
Import KServe.
Context {W F : Type}.
Implicit Types (s : state W F).

Lemma bind_return {A B} (m : M W F A) (k : A → M W F B) s b s' :
  bind m k s = (Return b, s') →
  ∃ a s1, m s = (Return a, s1) ∧ k a s1 = (Return b, s').
Proof.
  unfold bind. destruct (m s) as [[a|e] s1]; [eauto | discriminate].
Qed.

Lemma bind_raise {A B} (m : M W F A) (k : A → M W F B) s e s' :
  bind m k s = (Raise e, s') →
  m s = (Raise e, s') ∨ ∃ a s1, m s = (Return a, s1) ∧ k a s1 = (Raise e, s').
Proof.
  unfold bind. destruct (m s) as [[a|e'] s1]; [eauto | intros [= -> ->]; eauto].
Qed.

Lemma bind_step {A B} (m : M W F A) (k : A → M W F B) s a s1 :
  m s = (Return a, s1) → bind m k s = k a s1.
Proof. unfold bind. by intros ->. Qed.

Lemma bind_fail {A B} (m : M W F A) (k : A → M W F B) s e s1 :
  m s = (Raise e, s1) → bind m k s = (Raise e, s1).
Proof. unfold bind. by intros ->. Qed.

Lemma call_done {A} (op : W → answer A * W) s a w :
  op (world s) = (Done a, w) →
  call op s = (Return a, {| world := w; heap := heap s |}).
Proof. unfold call. by intros ->. Qed.

Lemma call_failed {A} (op : W → answer A * W) s e w :
  op (world s) = (Failed e, w) →
  call op s = (Raise (Propagated e), {| world := w; heap := heap s |}).
Proof. unfold call. by intros ->. Qed.

Lemma call_return {A} (op : W → answer A * W) s a s' :
  call op s = (Return a, s') →
  op (world s) = (Done a, world s') ∧ heap s' = heap s.
Proof.
  unfold call. destruct (op (world s)) as [[a'|e] w]; [|discriminate].
  by intros [= -> <-].
Qed.

(** A call raises nothing but the exception of the platform. *)
Lemma call_raise {A} (op : W → answer A * W) s e s' :
  call op s = (Raise e, s') →
  ∃ pe, e = Propagated pe ∧ op (world s) = (Failed pe, world s') ∧ heap s' = heap s.
Proof.
  unfold call. destruct (op (world s)) as [[a'|pe] w]; [discriminate|].
  intros [= <- <-]. eauto.
Qed.

Lemma deref_return (l : nat) s o s' :
  deref l s = (Return o, s') → heap s !! l = Some o ∧ s' = s.
Proof. unfold deref. destruct (heap s !! l); [by intros [= -> ->] | discriminate]. Qed.

Lemma deref_some (l : nat) s o :
  heap s !! l = Some o → deref l s = (Return o, s).
Proof. unfold deref. by intros ->. Qed.

(** The last three statements of each function: the copy is a new object,
    it alone is assigned to, and its address is returned. *)
Lemma copy_assign (l : nat) (v : string) s o :
  heap s !! l = Some o →
  bind (copy l) (λ c, bind (set_model_uri c v) (λ _, ret c)) s
  = (Return (length (heap s)),
     {| world := world s; heap := (heap s ++ [with_model_uri o v])%list |}).
Proof.
  intros Hl. unfold bind, copy, set_model_uri, ret. rewrite Hl. cbn [heap world].
  rewrite list_lookup_middle by done.
  rewrite insert_app_r_alt by done. by rewrite Nat.sub_diag.
Qed.

Lemma copy_assign_return (l : nat) (v : string) s loc s' :
  bind (copy l) (λ c, bind (set_model_uri c v) (λ _, ret c)) s = (Return loc, s') →
  ∃ o, heap s !! l = Some o ∧ loc = length (heap s) ∧ world s' = world s
       ∧ heap s' = (heap s ++ [with_model_uri o v])%list.
Proof.
  destruct (heap s !! l) as [o|] eqn:Hl.
  - rewrite (copy_assign _ _ _ _ Hl). intros [= <- <-]. eauto.
  - unfold bind, copy. by rewrite Hl.
Qed.

Lemma bind_assoc {A B C} (m : M W F A) (k : A → M W F B) (k' : B → M W F C) s :
  bind (bind m k) k' s = bind m (λ a, bind (k a) k') s.
Proof. unfold bind. by destruct (m s) as [[a|e] s1]. Qed.

Lemma ret_step {A B} (a : A) (k : A → M W F B) s : bind (ret a) k s = k a s.
Proof. reflexivity. Qed.

Lemma ask_step {A B} (q : W → A) (k : A → M W F B) s :
  bind (ask q) k s = k (q (world s)) s.
Proof. reflexivity. Qed.

End monad_facts.

Ltac run_call H :=
  erewrite bind_step by (apply call_done; exact H); cbn [KServe.world KServe.heap].
Ltac run_deref :=
  erewrite bind_step by (apply deref_some; cbn [KServe.heap]; eassumption).

Ltac unwind H :=
  repeat first
    [ let Hc := fresh "Hc" in let Hh := fresh "Hh" in
      match type of H with KServe.bind (KServe.call _) _ _ = (Return _, _) => idtac end;
      apply bind_return in H as (? & ? & Hc & H);
      apply call_return in Hc as [Hc Hh]
    | let Hd := fresh "Hd" in
      match type of H with KServe.bind (KServe.deref _) _ _ = (Return _, _) => idtac end;
      apply bind_return in H as (? & ? & Hd & H);
      apply deref_return in Hd as [Hd ->]
    | match type of H with KServe.bind (KServe.ask _) _ _ = (Return _, _) => idtac end;
      rewrite ask_step in H ].

(** A platform call in front: either it fails and its exception is the
    outcome, or the run goes on in the world it leaves. *)
Ltac call_or_fail H :=
  match goal with
  | |- context [KServe.bind (KServe.call ?op) ?k ?s] =>
      let a := fresh "a" in let e := fresh "e" in let w := fresh "w" in
      destruct (op (KServe.world s)) as [[a|e] w] eqn:H;
      [ erewrite bind_step by (apply call_done; exact H); cbn [KServe.world KServe.heap]
      | erewrite bind_fail by (apply call_failed; exact H) ]
  end.

Tactic Notation "invert_call" hyp(H) "as"
    simple_intropattern(a) ident(s1) ident(Hc) ident(Hh) :=
  apply bind_return in H as (a & s1 & Hc & H);
  apply call_return in Hc as [Hc Hh].

Section kserve_properties.
Import KServe.
Context {W F : Type} `{!Platform W}.
Implicit Types (s : state W F) (config : KServeDeployerStepConfig).

Lemma state_eta s : {| world := world s; heap := heap s |} = s.
Proof. by destruct s. Qed.

(** An object is determined by its fields. *)
Lemma assigned_object (o served : KServeDeploymentConfig F) (v : string) :
  KServe.model_uri served = v →
  model_name served = model_name o →
  predictor served = predictor o →
  other_fields served = other_fields o →
  served = with_model_uri o v.
Proof. destruct served. cbn. by intros -> -> -> ->. Qed.

(** C4, as amended. With the predictor [tensorflow],
    [prepare_service_config] returns exactly when the creation of the folder
    [kserve] under the output artifact and the copy of the model artifact
    directory into its subdirectory [1] complete; the service config it
    returns is then a new object whose [model_uri] is that [kserve] folder
    and whose other fields are those of [config.service_config]. When one of
    the two calls raises, its exception is the outcome and no object is
    made. *)
Theorem tensorflow_version_directory
    (model_uri output_artifact_uri : string) config sc s :
  heap s !! service_config config = Some sc →
  predictor sc = "tensorflow" →
  (∀ (loc : nat) s',
     prepare_service_config model_uri output_artifact_uri config s = (Return loc, s')
     ↔ ∃ w1 served,
         fileio_makedirs (output_artifact_uri </> "kserve") (world s) = (Done (), w1)
         ∧ io_utils_copy_dir model_uri (output_artifact_uri </> "kserve" </> "1") w1
           = (Done (), world s')
         ∧ loc = length (heap s)
         ∧ heap s' = (heap s ++ [served])%list
         ∧ KServe.model_uri served = output_artifact_uri </> "kserve"
         ∧ model_name served = model_name sc
         ∧ predictor served = predictor sc
         ∧ other_fields served = other_fields sc)
  ∧ (∀ e w1,
       fileio_makedirs (output_artifact_uri </> "kserve") (world s) = (Failed e, w1) →
       prepare_service_config model_uri output_artifact_uri config s
       = (Raise (Propagated e), {| world := w1; heap := heap s |}))
  ∧ (∀ w1 e w2,
       fileio_makedirs (output_artifact_uri </> "kserve") (world s) = (Done (), w1) →
       io_utils_copy_dir model_uri (output_artifact_uri </> "kserve" </> "1") w1
       = (Failed e, w2) →
       prepare_service_config model_uri output_artifact_uri config s
       = (Raise (Propagated e), {| world := w2; heap := heap s |})).
Proof.
  intros Hsc Hp. unfold prepare_service_config. split_and!.
  - intros loc s'. split.
    + intros Hrun.
      apply bind_return in Hrun as ([] & s1 & H1 & Hrun).
      apply call_return in H1 as [H1 Hh1].
      apply bind_return in Hrun as (sc' & s2 & H2 & Hrun).
      apply deref_return in H2 as [H2 ->].
      rewrite Hh1, Hsc in H2. injection H2 as <-.
      rewrite Hp in Hrun. cbn [String.eqb Ascii.eqb Bool.eqb] in Hrun.
      apply bind_return in Hrun as (served & s3 & H3 & Hrun).
      apply bind_return in H3 as ([] & s4 & H3 & H4).
      apply call_return in H3 as [H3 Hh3]. injection H4 as <- ->.
      apply copy_assign_return in Hrun as (o & Ho & -> & Hw & Hh).
      rewrite Hh3, Hh1 in Ho, Hh |- *. rewrite Hsc in Ho. injection Ho as <-.
      exists (world s1), (with_model_uri sc (output_artifact_uri </> "kserve")).
      rewrite Hw. by split_and!.
    + intros (w1 & served & H1 & H2 & -> & Hh & Hu & Hn & Hpr & Ho).
      rewrite (assigned_object sc served _ Hu Hn Hpr Ho) in Hh.
      run_call H1. run_deref. rewrite Hp. cbn [String.eqb Ascii.eqb Bool.eqb].
      erewrite (bind_step (bind _ _)); last first.
      { run_call H2. reflexivity. }
      erewrite copy_assign by (cbn [heap]; exact Hsc). cbn [heap world].
      rewrite <- Hh. by rewrite state_eta.
  - intros e w1 H1. by erewrite bind_fail by (apply call_failed; exact H1).
  - intros w1 e w2 H1 H2. run_call H1. run_deref.
    rewrite Hp. cbn [String.eqb Ascii.eqb Bool.eqb].
    erewrite bind_fail; [reflexivity|].
    by erewrite bind_fail by (apply call_failed; exact H2).
Qed.

(** C6, as amended. Without custom deploy parameters
    [prepare_custom_service_config] raises [RuntimeError] and leaves the
    state as it found it. With them, the [kserve] folder is made and the
    model directory copied into it before the stack is looked at: an
    exception of either call is the outcome, whatever the context holds, and
    once both complete the function raises [DoesNotExistException] if and
    only if the context has no stack. *)
Theorem custom_missing_stack
    (model_uri output_artifact_uri : string) config (context : StepContext) s :
  (custom_deploy_paramters config = None →
   prepare_custom_service_config model_uri output_artifact_uri config context s
   = (Raise (RuntimeError "No custom deploy parameters provided"), s))
  ∧ (∀ params w1 w2,
       custom_deploy_paramters config = Some params →
       fileio_makedirs (output_artifact_uri </> "kserve") (world s) = (Done (), w1) →
       io_utils_copy_dir model_uri (output_artifact_uri </> "kserve") w1 = (Done (), w2) →
       (∃ msg, (prepare_custom_service_config model_uri output_artifact_uri
                  config context s).1 = Raise (DoesNotExistException msg))
       ↔ stack context = None)
  ∧ (∀ params e w1,
       custom_deploy_paramters config = Some params →
       fileio_makedirs (output_artifact_uri </> "kserve") (world s) = (Failed e, w1) →
       prepare_custom_service_config model_uri output_artifact_uri config context s
       = (Raise (Propagated e), {| world := w1; heap := heap s |}))
  ∧ (∀ params w1 e w2,
       custom_deploy_paramters config = Some params →
       fileio_makedirs (output_artifact_uri </> "kserve") (world s) = (Done (), w1) →
       io_utils_copy_dir model_uri (output_artifact_uri </> "kserve") w1 = (Failed e, w2) →
       prepare_custom_service_config model_uri output_artifact_uri config context s
       = (Raise (Propagated e), {| world := w2; heap := heap s |})).
Proof.
  split_and!.
  - intros Hc. unfold prepare_custom_service_config. by rewrite Hc.
  - intros params w1 w2 Hc H1 H2. unfold prepare_custom_service_config. rewrite Hc.
    run_call H1. run_call H2.
    destruct (stack context) as [st|]; [|split; [done | cbn; eauto]].
    split; [|done]. intros [msg Hrun]. exfalso.
    destruct (get_artifacts_by_uri st model_uri) as [|a0 rest]; [done|].
    match type of Hrun with (?r).1 = _ => destruct r as [o s'] eqn:Hr end.
    cbn [fst] in Hrun. subst o.
    apply bind_raise in Hr as [Hr|(? & s3 & Hr1 & Hr)].
    + unfold save_to_json_zenml_artifact in Hr.
      apply bind_raise in Hr as [Hr|(? & s3 & Hr1 & Hr)];
        apply call_raise in Hr as (pe & [=] & _).
    + apply bind_raise in Hr as [Hr|(? & s4 & Hr2 & Hr)].
      * unfold copy in Hr. by destruct (heap s3 !! service_config config).
      * apply bind_raise in Hr as [Hr|(? & s5 & Hr3 & Hr)]; [|done].
        unfold set_model_uri in Hr. by destruct (heap s4 !! _).
  - intros params e w1 Hc H1. unfold prepare_custom_service_config. rewrite Hc.
    by erewrite bind_fail by (apply call_failed; exact H1).
  - intros params w1 e w2 Hc H1 H2. unfold prepare_custom_service_config. rewrite Hc.
    run_call H1. by erewrite bind_fail by (apply call_failed; exact H2).
Qed.


Lemma copy_assign_frame config (v : string) s0 s loc s' :
  heap s = heap s0 →
  bind (copy (service_config config)) (λ c, bind (set_model_uri c v) (λ _, ret c)) s
  = (Return loc, s') →
  only_model_uri_reassigned config s0 loc s'.
Proof.
  intros Hh Hrun. apply copy_assign_return in Hrun as (o & Ho & -> & _ & Hh').
  rewrite Hh in Ho, Hh' |- *. exists o, (with_model_uri o v).
  rewrite Hh'. split_and!; try done.
  - by apply list_lookup_middle.
  - apply lookup_lt_Some in Ho. lia.
  - intros i o' Hi. by apply lookup_app_l_Some.
Qed.

(** C10. Whatever [prepare_service_config], [prepare_torch_service_config]
    or [prepare_custom_service_config] returns is the address of a new
    object that agrees with [config.service_config] on every field but
    [model_uri], and the objects that were there before the call, the one
    passed in among them, are unchanged. *)
Theorem service_config_frame :
  (∀ (model_uri output_artifact_uri : string) config s loc s',
     prepare_service_config model_uri output_artifact_uri config s = (Return loc, s') →
     only_model_uri_reassigned config s loc s')
  ∧ (∀ (model_uri output_artifact_uri : string) config s loc s',
       prepare_torch_service_config model_uri output_artifact_uri config s
       = (Return loc, s') →
       only_model_uri_reassigned config s loc s')
  ∧ (∀ (model_uri output_artifact_uri : string) config context s loc s',
       prepare_custom_service_config model_uri output_artifact_uri config context s
       = (Return loc, s') →
       only_model_uri_reassigned config s loc s').
Proof.
  split_and!.
  - intros model_uri out config s loc s' Hrun. unfold prepare_service_config in Hrun.
    unwind Hrun.
    apply bind_return in Hrun as (served & s2 & Hb & Hrun).
    apply copy_assign_frame with (s0 := s) in Hrun; [done|].
    destruct (String.eqb _ "tensorflow"); [|destruct (String.eqb _ "sklearn")].
    + unwind Hb. injection Hb as _ <-. congruence.
    + unwind Hb. destruct (negb _); [done|]. unwind Hb. injection Hb as _ <-. congruence.
    + injection Hb as _ <-. congruence.
  - intros model_uri out config s loc s' Hrun.
    unfold prepare_torch_service_config in Hrun. unwind Hrun.
    apply bind_return in Hrun as ([] & s2 & Hb & Hrun).
    apply copy_assign_frame with (s0 := s) in Hrun; [done|].
    destruct (torch_serve_paramters config) as [params|]; [|done].
    unwind Hb. destruct (negb _); [done|]. unwind Hb.
    destruct (Py.truthy _).
    + apply call_return in Hb as [_ Hb]. congruence.
    + unfold generate_model_deployer_config in Hb. unwind Hb.
      apply call_return in Hb as [_ Hb]. congruence.
  - intros model_uri out config context s loc s' Hrun.
    unfold prepare_custom_service_config in Hrun.
    destruct (custom_deploy_paramters config); [|done]. unwind Hrun.
    destruct (stack context) as [st|]; [|done].
    destruct (get_artifacts_by_uri st model_uri) as [|a0 rest]; [done|].
    apply bind_return in Hrun as ([] & s2 & Hb & Hrun).
    apply copy_assign_frame with (s0 := s) in Hrun; [done|].
    unfold save_to_json_zenml_artifact in Hb. unwind Hb.
    apply call_return in Hb as [_ Hb]. congruence.
Qed.





End kserve_properties.

Lemma last_char_append (a b : string) : b ≠ "" → Py.last_char (a ++ b) = Py.last_char b.
Proof.
  intros Hb. induction a as [|x a IH]; norm_append; [done|].
  cbn [Py.last_char]. rewrite IH. destruct (a ++ b) eqn:E; [|done].
  destruct a; [by rewrite append_nil in E | by rewrite append_cons in E].
Qed.

Lemma os_path_join_suffix (a b : string) : ∃ p, Py.os_path_join a b = p ++ b.
Proof.
  unfold Py.os_path_join. destruct (Py.startswith b "/"); [by exists ""|].
  destruct (_ || _); [by exists a|]. exists (a ++ "/"). by rewrite append_assoc.
Qed.

Lemma last_char_join (a b : string) :
  b ≠ "" → Py.last_char (Py.os_path_join a b) = Py.last_char b.
Proof.
  intros Hb. destruct (os_path_join_suffix a b) as [p ->]. by apply last_char_append.
Qed.

Lemma archive_is_not_properties (a b name : string) :
  Py.os_path_join a (name ++ ".mar") ≠ Py.os_path_join b "config.properties".
Proof.
  intros E. apply (f_equal Py.last_char) in E.
  rewrite !last_char_join in E; [| done | by destruct name].
  by rewrite last_char_append in E.
Qed.

Lemma unicode_text_str_of (s : string) : Json.unicode_text (str_of s).
Proof.
  induction s as [|a s IH]; [constructor|]. constructor; [|done].
  pose proof (N_ascii_bounded a). unfold Json.unicode_scalar. lia.
Qed.

Section kserve_files.
Import KServe.
Context {W F : Type} `{!Platform W} `{!PlatformLaws W}.
Implicit Types (s : state W F) (config : KServeDeployerStepConfig).

(** C3, as amended. With the predictor [sklearn], once the [kserve] folder
    is made, [prepare_service_config] raises [RuntimeError] if and only if
    the file [model] under the model artifact does not exist. When it exists
    and its copy completes, the file is at [model.joblib] under the [kserve]
    folder with the same text, and the service config returned is a new
    object whose [model_uri] is that folder. An exception of [makedirs] or
    of the copy is the outcome of the call, and no object is made. *)
Theorem sklearn_model_file
    (model_uri output_artifact_uri : string) config sc s :
  heap s !! service_config config = Some sc →
  predictor sc = "sklearn" →
  (∀ e w1,
     fileio_makedirs (output_artifact_uri </> "kserve") (world s) = (Failed e, w1) →
     prepare_service_config model_uri output_artifact_uri config s
     = (Raise (Propagated e), {| world := w1; heap := heap s |}))
  ∧ (∀ w1,
       fileio_makedirs (output_artifact_uri </> "kserve") (world s) = (Done (), w1) →
       ((∃ msg, (prepare_service_config model_uri output_artifact_uri config s).1
                = Raise (RuntimeError msg))
        ↔ fileio_exists (model_uri </> "model") w1 = false)
       ∧ (fileio_exists (model_uri </> "model") w1 = true →
          (∀ w2,
             fileio_copy (model_uri </> "model")
               (output_artifact_uri </> "kserve" </> "model.joblib") w1 = (Done (), w2) →
             ∃ served text,
               prepare_service_config model_uri output_artifact_uri config s
               = (Return (length (heap s)),
                  {| world := w2; heap := (heap s ++ [served])%list |})
               ∧ KServe.model_uri served = output_artifact_uri </> "kserve"
               ∧ file_content w1 (model_uri </> "model") = Some text
               ∧ file_content w2 (output_artifact_uri </> "kserve" </> "model.joblib")
                 = Some text)
          ∧ (∀ e w2,
               fileio_copy (model_uri </> "model")
                 (output_artifact_uri </> "kserve" </> "model.joblib") w1
               = (Failed e, w2) →
               prepare_service_config model_uri output_artifact_uri config s
               = (Raise (Propagated e), {| world := w2; heap := heap s |})))).
Proof.
  intros Hsc Hp. unfold prepare_service_config. split.
  { intros e w1 H1. by erewrite bind_fail by (apply call_failed; exact H1). }
  intros w1 H1.
  run_call H1. run_deref. rewrite Hp. cbn [String.eqb Ascii.eqb Bool.eqb].
  rewrite bind_assoc, ask_step. cbn [world].
  destruct (fileio_exists _ w1) eqn:Hex; cbn [negb].
  - split; [split; [|done]|].
    + intros [msg Hrun]. exfalso. rewrite bind_assoc in Hrun.
      destruct (fileio_copy (model_uri </> "model")
                  (output_artifact_uri </> "kserve" </> "model.joblib") w1)
        as [[[]|e] w2] eqn:H2.
      * erewrite bind_step in Hrun by (apply call_done; exact H2).
        rewrite ret_step in Hrun.
        erewrite copy_assign in Hrun by (cbn [heap]; exact Hsc). done.
      * erewrite bind_fail in Hrun by (apply call_failed; exact H2). done.
    + intros _. split.
      * intros w2 H2. rewrite bind_assoc. run_call H2. rewrite ret_step.
        erewrite copy_assign by (cbn [heap]; exact Hsc).
        destruct (copy_content _ _ _ _ H2) as (text & Hsrc & Hdst).
        exists (with_model_uri sc (output_artifact_uri </> "kserve")), text.
        by split_and!.
      * intros e w2 H2. rewrite bind_assoc.
        by erewrite bind_fail by (apply call_failed; exact H2).
  - split; [|done]. split; [done|]. intros _. by eexists.
Qed.

(** C1. An artifact whose [datatype] and [materializer] properties hold
    strings, Unicode text as every string of a protocol buffer is, is saved
    with [save_to_json_zenml_artifact]; the artifact that
    [load_from_json_zenml_artifact] rebuilds from the file written, once the
    file is read, holds the same two strings. *)
Theorem artifact_metadata_round_trip
    (served_model_uri : string) (artifact : Artifact) (datatype materializer : pystr)
    s s1 (text : string) (w2 : W) :
  properties artifact !! "datatype" = Some (StringValue datatype) →
  properties artifact !! "materializer" = Some (StringValue materializer) →
  Json.unicode_text datatype →
  Json.unicode_text materializer →
  save_to_json_zenml_artifact served_model_uri artifact s = (Return (), s1) →
  fileio_open_read (served_model_uri </> ARTIFACT_FILE) (world s1) = (Done text, w2) →
  ∃ loaded,
    load_from_json_zenml_artifact served_model_uri s1
    = (Return loaded, {| world := w2; heap := heap s1 |})
    ∧ properties loaded !! "datatype" = Some (StringValue datatype)
    ∧ properties loaded !! "materializer" = Some (StringValue materializer).
Proof.
  intros Hd Hm Hdu Hmu Hsave Hread.
  assert (string_value (properties_get artifact "datatype") = datatype) as Ed
    by (unfold properties_get; by rewrite Hd).
  assert (string_value (properties_get artifact "materializer") = materializer) as Em
    by (unfold properties_get; by rewrite Hm).
  unfold save_to_json_zenml_artifact in Hsave. rewrite Ed, Em in Hsave.
  invert_call Hsave as name s0 Hc Hh. apply call_return in Hsave as [Hcopy _].
  apply temporary_content in Hc.
  destruct (copy_content _ _ _ _ Hcopy) as (written & Hw & Hdst).
  pose proof (open_read_content _ _ _ _ Hread) as Htext.
  assert (text = Json.dumps [(str_of "datatype", datatype);
                             (str_of "materializer", materializer)]) as ->
    by congruence.
  unfold load_from_json_zenml_artifact. run_call Hread.
  rewrite loads_dumps; last first.
  { repeat (apply Forall_cons_2; [split; [apply unicode_text_str_of | done]|]).
    apply Forall_nil_2. }
  unfold Json.dict, getitem. cbn [foldl fst snd].
  rewrite lookup_insert_ne by done. rewrite lookup_insert_eq.
  rewrite ret_step, lookup_insert_eq, ret_step.
  eexists. split; [reflexivity|]. cbn [properties properties_set_string].
  split; [by rewrite lookup_insert_ne, lookup_insert_eq | by rewrite lookup_insert_eq].
Qed.

(** X12. A call of [prepare_torch_service_config] that returns has gone
    through the archiver; the package the archiver left is, with the same
    text, in [model-store], [config.properties] holds the text of the file
    copied there, which is the one the parameters name or else the generated
    one, and the returned service config has the [kserve] folder as its
    [model_uri]. *)
Lemma torch_layout_of_return
    (model_uri output_artifact_uri : string) config params sc s (loc : nat) s' :
  torch_serve_paramters config = Some params →
  heap s !! service_config config = Some sc →
  prepare_torch_service_config model_uri output_artifact_uri config s = (Return loc, s') →
  ∃ temp_dir w archive properties_src w_properties properties,
    archiver_ran model_uri output_artifact_uri config sc s temp_dir w
    ∧ file_content w (temp_dir </> (model_name sc ++ ".mar")) = Some archive
    ∧ file_content (world s')
        (output_artifact_uri </> "kserve" </> "model-store" </> (model_name sc ++ ".mar"))
      = Some archive
    ∧ fileio_copy properties_src
        (output_artifact_uri </> "kserve" </> "config" </> "config.properties")
        w_properties = (Done (), world s')
    ∧ file_content w_properties properties_src = Some properties
    ∧ file_content (world s')
        (output_artifact_uri </> "kserve" </> "config" </> "config.properties")
      = Some properties
    ∧ (if Py.truthy (torch_config params)
       then torch_config params = Some properties_src
       else properties = deployer_config_text (model_name sc))
    ∧ ∃ served,
        heap s' !! loc = Some served
        ∧ KServe.model_uri served = output_artifact_uri </> "kserve".
Proof.
  intros Hp Hsc Hrun. unfold prepare_torch_service_config in Hrun.
  rewrite Hp in Hrun.
  invert_call Hrun as [] s1 H1 Hh1. invert_call Hrun as [] s2 H2 Hh2.
  apply bind_return in Hrun as ([] & s9 & Hb & Hrun).
  invert_call Hb as temp_dir s3 H3 Hh3. invert_call Hb as [] s4 H4 Hh4.
  apply bind_return in Hb as (sc' & s4' & Hd & Hb).
  apply deref_return in Hd as [Hd ->].
  assert (heap s4 = heap s) as Hheap4 by congruence.
  rewrite Hheap4, Hsc in Hd. injection Hd as <-.
  invert_call Hb as manifest s5 H5 Hh5. invert_call Hb as [] s6 H6 Hh6.
  rewrite ask_step in Hb.
  destruct (fileio_exists _ _) eqn:Hex; cbn [negb] in Hb; [|done].
  invert_call Hb as [] s7 H7 Hh7.
  assert (heap s7 = heap s) as Hheap7 by congruence.
  destruct (copy_content _ _ _ _ H7) as (archive & Hsrc & Hdst).
  assert (archiver_ran model_uri output_artifact_uri config sc s temp_dir (world s6))
    as Hran by (by exists params, (world s1), (world s2), (world s3), (world s4),
                          manifest, (world s5)).
  assert (∃ properties_src w_properties properties,
            fileio_copy properties_src
              (output_artifact_uri </> "kserve" </> "config" </> "config.properties")
              w_properties = (Done (), world s9)
            ∧ file_content w_properties properties_src = Some properties
            ∧ file_content w_properties
                (output_artifact_uri </> "kserve" </> "model-store"
                 </> (model_name sc ++ ".mar")) = Some archive
            ∧ (if Py.truthy (torch_config params)
               then torch_config params = Some properties_src
               else properties = deployer_config_text (model_name sc))
            ∧ heap s9 = heap s)
    as (properties_src & w_properties & properties & Hcp & Hps & Harch & Hkind & Hheap).
  { destruct (Py.truthy (torch_config params)) eqn:Ht.
    - apply call_return in Hb as [Hb Hh'].
      destruct (copy_content _ _ _ _ Hb) as (properties & Hps & _).
      exists (default "" (torch_config params)), (world s7), properties.
      split_and!; try done; [|congruence].
      by destruct (torch_config params).
    - unfold generate_model_deployer_config in Hb.
      invert_call Hb as name s8 H8 Hh8.
      apply call_return in Hb as [Hb Hh'].
      exists name, (world s8), (deployer_config_text (model_name sc)).
      split_and!; try done; [| |congruence].
      + by eapply temporary_content.
      + by eapply temporary_frame. }
  apply copy_assign_return in Hrun as (o & Ho & -> & Hw & Hh').
  rewrite Hheap, Hsc in Ho. injection Ho as <-. rewrite Hheap in Hh'.
  destruct (copy_content _ _ _ _ Hcp) as (properties' & Hps' & Hpd).
  rewrite Hps in Hps'. injection Hps' as <-.
  exists temp_dir, (world s6), archive, properties_src, w_properties, properties.
  rewrite Hw, Hh', Hheap.
  split_and!; try done.
  - erewrite copy_frame by (exact Hcp || apply archive_is_not_properties). done.
  - exists (with_model_uri sc (output_artifact_uri </> "kserve")).
    split; [by apply list_lookup_middle | done].
Qed.

(** C2, as amended. In a call of [prepare_torch_service_config] with torch
    serve parameters in which the archiver has run and has left its package:
    when the copy of the package, the writing of the generated properties
    file (if the parameters name none) and the copy of the properties file
    complete, the call returns; the package is then, with the same text, at
    [model_name.mar] in [model-store] under the [kserve] folder of the
    output artifact, [config.properties] in the sibling [config] holds the
    serving properties, and the service config returned is a new object
    whose [model_uri] is the [kserve] folder. When one of these calls
    raises, its exception is the outcome and no object is made. *)
Theorem torch_serving_layout
    (model_uri output_artifact_uri : string) config params sc s
    (temp_dir : string) (w : W) :
  torch_serve_paramters config = Some params →
  heap s !! service_config config = Some sc →
  archiver_ran model_uri output_artifact_uri config sc s temp_dir w →
  fileio_exists (temp_dir </> (model_name sc ++ ".mar")) w = true →
  (∀ w_stored properties_src w_ready w_final,
     fileio_copy (temp_dir </> (model_name sc ++ ".mar"))
       (output_artifact_uri </> "kserve" </> "model-store" </> (model_name sc ++ ".mar")) w
     = (Done (), w_stored) →
     properties_prepared params sc temp_dir w_stored properties_src w_ready →
     fileio_copy properties_src
       (output_artifact_uri </> "kserve" </> "config" </> "config.properties") w_ready
     = (Done (), w_final) →
     ∃ served archive properties,
       prepare_torch_service_config model_uri output_artifact_uri config s
       = (Return (length (heap s)),
          {| world := w_final; heap := (heap s ++ [served])%list |})
       ∧ KServe.model_uri served = output_artifact_uri </> "kserve"
       ∧ file_content w (temp_dir </> (model_name sc ++ ".mar")) = Some archive
       ∧ file_content w_final
           (output_artifact_uri </> "kserve" </> "model-store" </> (model_name sc ++ ".mar"))
         = Some archive
       ∧ file_content w_ready properties_src = Some properties
       ∧ file_content w_final
           (output_artifact_uri </> "kserve" </> "config" </> "config.properties")
         = Some properties
       ∧ (Py.truthy (torch_config params) = false →
          properties = deployer_config_text (model_name sc)))
  ∧ (∀ e w',
       fileio_copy (temp_dir </> (model_name sc ++ ".mar"))
         (output_artifact_uri </> "kserve" </> "model-store" </> (model_name sc ++ ".mar")) w
       = (Failed e, w') →
       prepare_torch_service_config model_uri output_artifact_uri config s
       = (Raise (Propagated e), {| world := w'; heap := heap s |}))
  ∧ (∀ w_stored e w',
       fileio_copy (temp_dir </> (model_name sc ++ ".mar"))
         (output_artifact_uri </> "kserve" </> "model-store" </> (model_name sc ++ ".mar")) w
       = (Done (), w_stored) →
       Py.truthy (torch_config params) = false →
       NamedTemporaryFile_write (Some temp_dir) ".properties"
         (deployer_config_text (model_name sc)) w_stored = (Failed e, w') →
       prepare_torch_service_config model_uri output_artifact_uri config s
       = (Raise (Propagated e), {| world := w'; heap := heap s |}))
  ∧ (∀ w_stored properties_src w_ready e w',
       fileio_copy (temp_dir </> (model_name sc ++ ".mar"))
         (output_artifact_uri </> "kserve" </> "model-store" </> (model_name sc ++ ".mar")) w
       = (Done (), w_stored) →
       properties_prepared params sc temp_dir w_stored properties_src w_ready →
       fileio_copy properties_src
         (output_artifact_uri </> "kserve" </> "config" </> "config.properties") w_ready
       = (Failed e, w') →
       prepare_torch_service_config model_uri output_artifact_uri config s
       = (Raise (Propagated e), {| world := w'; heap := heap s |})).
Proof.
  intros Hp Hsc (params' & w1 & w2 & w3 & w4 & manifest & w5
                 & Hp' & H1 & H2 & H3 & H4 & H5 & H6) Hex.
  rewrite Hp in Hp'. injection Hp' as <-.
  assert (prepare_torch_service_config model_uri output_artifact_uri config s
          = bind
              (bind (call (fileio_copy (temp_dir </> (model_name sc ++ ".mar"))
                             (output_artifact_uri </> "kserve" </> "model-store"
                              </> (model_name sc ++ ".mar"))))
                 (λ _, if Py.truthy (torch_config params)
                       then call (fileio_copy (default "" (torch_config params))
                                    (output_artifact_uri </> "kserve" </> "config"
                                     </> "config.properties"))
                       else bind (generate_model_deployer_config (model_name sc) temp_dir)
                              (λ config_file_uri,
                                 call (fileio_copy config_file_uri
                                         (output_artifact_uri </> "kserve" </> "config"
                                          </> "config.properties")))))
              (λ _, bind (copy (service_config config))
                      (λ c, bind (set_model_uri c (output_artifact_uri </> "kserve"))
                              (λ _, ret c)))
              {| world := w; heap := heap s |}) as ->.
  { unfold prepare_torch_service_config. run_call H1. run_call H2. rewrite Hp.
    rewrite bind_assoc. run_call H3. rewrite bind_assoc. run_call H4.
    rewrite bind_assoc. run_deref.
    rewrite bind_assoc. run_call H5. rewrite bind_assoc. run_call H6.
    rewrite bind_assoc, ask_step. cbn [world]. rewrite Hex. cbn [negb].
    by rewrite !bind_assoc. }
  rewrite bind_assoc.
  split_and!.
  - intros w_stored properties_src w_ready w_final H7 Hprep H8.
    destruct (copy_content _ _ _ _ H7) as (archive & Hsrc & Hdst).
    destruct (copy_content _ _ _ _ H8) as (properties & Hps & Hpd).
    exists (with_model_uri sc (output_artifact_uri </> "kserve")), archive, properties.
    split_and!; try done.
    + run_call H7. unfold properties_prepared in Hprep.
      destruct (Py.truthy (torch_config params)).
      * destruct Hprep as [Htc ->]. rewrite Htc. cbn [default from_option id].
        run_call H8. by erewrite copy_assign by (cbn [heap]; exact Hsc).
      * unfold generate_model_deployer_config. rewrite bind_assoc.
        run_call Hprep. run_call H8.
        by erewrite copy_assign by (cbn [heap]; exact Hsc).
    + erewrite copy_frame by (exact H8 || apply archive_is_not_properties).
      unfold properties_prepared in Hprep.
      destruct (Py.truthy (torch_config params)).
      * by destruct Hprep as [_ ->].
      * by eapply temporary_frame.
    + intros Ht. unfold properties_prepared in Hprep. rewrite Ht in Hprep.
      apply temporary_content in Hprep. congruence.
  - intros e w' H7. by erewrite bind_fail by (apply call_failed; exact H7).
  - intros w_stored e w' H7 Ht Hw. run_call H7. rewrite Ht.
    unfold generate_model_deployer_config. rewrite bind_assoc.
    by erewrite bind_fail by (apply call_failed; exact Hw).
  - intros w_stored properties_src w_ready e w' H7 Hprep H8. run_call H7.
    unfold properties_prepared in Hprep.
    destruct (Py.truthy (torch_config params)).
    + destruct Hprep as [Htc ->]. rewrite Htc. cbn [default from_option id].
      by erewrite bind_fail by (apply call_failed; exact H8).
    + unfold generate_model_deployer_config. rewrite bind_assoc.
      run_call Hprep. by erewrite bind_fail by (apply call_failed; exact H8).
Qed.

End kserve_files.

(** ** The container registry *)
Section registry.
Import Registry.

(** C7. [push_image] raises [ValueError], and pushes nothing, for an image
    name that does not start with the URI of the registry; for one that
    does, it does not raise and the image is pushed. *)
Theorem push_image_checks_uri (r : BaseContainerRegistry) (image_name : string)
    (pushed : list string) :
  (¬ (∃ rest, image_name = uri r ++ rest) →
   ∃ msg, push_image r image_name pushed = (Raise (ValueError msg), pushed))
  ∧ ((∃ rest, image_name = uri r ++ rest) →
     push_image r image_name pushed = (Return (), (pushed ++ [image_name])%list)).
Proof.
  unfold push_image. rewrite <- startswith_spec.
  destruct (Py.startswith image_name (uri r)); split; try done.
  intros _. by eexists.
Qed.

(** C8. The [uri] a registry stores is the one given at construction
    without its trailing slashes: the given one is the stored one followed
    by slashes only, the stored one ends in no slash, [test/] is stored as
    [test], and a URI that ends in no slash is stored as it is. *)
Theorem uri_trailing_slashes_removed (name uri0 : string)
    (username password authentication_secret : option string) :
  uri (new name uri0 username password authentication_secret) = Py.rstrip uri0 "/"
  ∧ (∃ n, uri0 = uri (new name uri0 username password authentication_secret)
                 ++ Py.repeat_char "/" n)
  ∧ Py.endswith (uri (new name uri0 username password authentication_secret)) "/" = false
  ∧ (Py.endswith uri0 "/" = false →
     uri (new name uri0 username password authentication_secret) = uri0)
  ∧ uri (new "" "test/" None None None) = "test".
Proof.
  cbn [new uri]. split_and!; [done | apply rstrip_trailing | apply rstrip_stripped
                             | apply rstrip_unchanged | done].
Qed.

Lemma truthy_provided (o : option string) : Py.truthy o = true ↔ provided o.
Proof.
  unfold provided. destruct o as [[|a s]|]; cbn; split; try done.
  - by intros (s & [= <-] & Hs).
  - intros _. by eexists.
  - by intros (s & [=] & _).
Qed.

(** C9. [requires_authentication] is false for a registry built without
    credentials; it is true exactly when a username and a password are both
    provided, or an authentication secret is; a username alone or a password
    alone leaves it false. *)
Theorem requires_authentication_spec :
  (∀ name uri, requires_authentication (new name uri None None None) = false)
  ∧ (∀ r, requires_authentication r = true
          ↔ (provided (username r) ∧ provided (password r))
            ∨ provided (authentication_secret r))
  ∧ (∀ name uri user, requires_authentication (new name uri (Some user) None None) = false)
  ∧ (∀ name uri pw, requires_authentication (new name uri None (Some pw) None) = false).
Proof.
  split_and!; try done.
  - intros r. unfold requires_authentication.
    rewrite orb_true_iff, andb_true_iff, !truthy_provided. done.
  - intros name uri user. unfold requires_authentication. cbn.
    by rewrite andb_false_r.
Qed.

(** The assertions of [test_base_container_registry.py]. *)
Example test_base_container_registry_removes_trailing_slashes :
  uri (new "" "test/" None None None) = "test".
Proof. reflexivity. Qed.

Example test_base_container_registry_requires_authentication :
  requires_authentication (new "" "" None None None) = false
  ∧ requires_authentication (new "" "" (Some "username") None None) = false
  ∧ requires_authentication (new "" "" None (Some "password") None) = false
  ∧ requires_authentication (new "" "" (Some "username") (Some "password") None) = true
  ∧ requires_authentication (new "" "" None None (Some "secret")) = true.
Proof. by split_and!. Qed.

Example test_base_container_registry_prevents_push_if_uri_does_not_match :
  push_image (new "" "some_uri" None None None) "some_uri/image_name" []
  = (Return (), ["some_uri/image_name"])
  ∧ ∃ msg, push_image (new "" "some_uri" None None None) "wrong_uri/image_name" []
           = (Raise (ValueError msg), []).
Proof. split; [reflexivity | by eexists]. Qed.

End registry.

Lemma memfs_laws : PlatformLaws MemFS.fs.
Proof.
  split.
  - intros src dst w w'. cbn. unfold MemFS.copyfile.
    destruct (MemFS.present dst w); [done|].
    destruct (MemFS.files w !! src) as [text|] eqn:Hsrc;
      [|by destruct (MemFS.isdir src w)].
    destruct (MemFS.isdir _ w); [|done]. intros [= <-].
    exists text. split; [done|]. cbn. apply lookup_insert_eq.
  - intros src dst w w' p. cbn. unfold MemFS.copyfile.
    destruct (MemFS.present dst w); [done|].
    destruct (MemFS.files w !! src) as [text|] eqn:Hsrc;
      [|by destruct (MemFS.isdir src w)].
    destruct (MemFS.isdir _ w); [|done]. intros [= <-] Hp.
    cbn. by apply lookup_insert_ne.
  - intros dir suffix text w name w'. cbn. unfold MemFS.temporary_write.
    destruct (negb _); [done|].
    destruct (MemFS.present _ w); [done|]. intros [= <- <-]. cbn.
    apply lookup_insert_eq.
  - intros dir suffix text w name w' p c. cbn. unfold MemFS.temporary_write.
    destruct (negb _); [done|].
    destruct (MemFS.present _ w) eqn:Hpr; [done|]. intros [= <- <-] Hp. cbn.
    rewrite lookup_insert_ne; [done|]. intros <-.
    unfold MemFS.present in Hpr. apply orb_false_elim in Hpr as [Hpr _].
    apply bool_decide_eq_false in Hpr. apply Hpr. by eexists.
  - intros p w text w'. cbn. unfold MemFS.open_read.
    destruct (MemFS.files w !! p); [by intros [= -> _]|].
    by destruct (MemFS.isdir p w).
Qed.

(** ** The properties on the in-memory platform *)
Import KServe.

Example sklearn_model_is_served :
  (prepare_service_config "/store/sk" "/out" (MemFS.step_config None None)
     (MemFS.start "sklearn")).1 = Return 1
  ∧ file_content
      (world (prepare_service_config "/store/sk" "/out" (MemFS.step_config None None)
                (MemFS.start "sklearn")).2)
      "/out/kserve/model.joblib" = Some "pickle".
Proof. split; vm_compute; reflexivity. Qed.

Example sklearn_model_is_missing :
  (prepare_service_config "/store/torch" "/out" (MemFS.step_config None None)
     (MemFS.start "sklearn")).1
  = Raise (RuntimeError
             "Expected sklearn model artifact was not found at /store/torch/model").
Proof. vm_compute. reflexivity. Qed.

Example other_predictors_reuse_the_model_uri :
  model_uri <$>
    heap (prepare_service_config "/store/torch" "/out" (MemFS.step_config None None)
            (MemFS.start "xgboost")).2 !! 1%nat
  = Some "/store/torch".
Proof. vm_compute. reflexivity. Qed.

Example torch_parameters_are_missing :
  (prepare_torch_service_config "/store/torch" "/out" (MemFS.step_config None None)
     (MemFS.start "pytorch")).1
  = Raise (RuntimeError "No torch serve parameters provided").
Proof. vm_compute. reflexivity. Qed.

Example torch_archive_is_missing :
  (prepare_torch_service_config "/store/torch" "/out" MemFS.torch_config_generated
     {| world := MemFS.store_without_export; heap := [MemFS.deployment "pytorch"] |}).1
  = Raise (RuntimeError
             ("Expected torch archived model artifact was not found at "
              ++ "/tmp/zenml-pytorch-temp-/mnist.mar")).
Proof. vm_compute. reflexivity. Qed.

Example torch_checkpoint_is_missing :
  (prepare_torch_service_config "/store/sk" "/out" MemFS.torch_config_generated
     (MemFS.start "pytorch")).1
  = Raise (Propagated FileNotFoundError).
Proof. vm_compute. reflexivity. Qed.

Example copy_of_a_directory :
  fileio_copy "/store/sk" "/out/model" MemFS.store = (Failed IsADirectoryError, MemFS.store).
Proof. vm_compute. reflexivity. Qed.

Example copy_into_a_missing_folder :
  fileio_copy "/store/sk/model" "/out/kserve/model.joblib" MemFS.store
  = (Failed FileNotFoundError, MemFS.store).
Proof. vm_compute. reflexivity. Qed.

Example dirname_of_a_file :
  MemFS.dirname "/out/kserve/model.joblib" = "/out/kserve"
  ∧ MemFS.dirname "/model" = "/"
  ∧ MemFS.dirname "model" = "".
Proof. split_and!; reflexivity. Qed.

Example custom_stack_is_missing :
  ∃ msg, (prepare_custom_service_config "/store/torch" "/out" MemFS.custom_config
            {| stack := None |} (MemFS.start "custom")).1
         = Raise (DoesNotExistException msg).
Proof. eexists. vm_compute. reflexivity. Qed.

Lemma artifact_metadata_round_trip_witness :
  ∃ loaded,
    load_from_json_zenml_artifact "/out/kserve" MemFS.saved
    = (Return loaded, {| world := world MemFS.saved; heap := heap MemFS.saved |})
    ∧ properties loaded !! "datatype"
      = Some (StringValue (str_of "torch.nn.modules.module.Module"))
    ∧ properties loaded !! "materializer"
      = Some (StringValue
                (str_of "zenml.integrations.pytorch.materializers.PyTorchMaterializer")).
Proof.
  apply (artifact_metadata_round_trip (PlatformLaws0 := memfs_laws)
           "/out/kserve" MemFS.trained _ _ MemFS.folder_made MemFS.saved
           (Json.dumps
              [(str_of "datatype", str_of "torch.nn.modules.module.Module");
               (str_of "materializer",
                str_of "zenml.integrations.pytorch.materializers.PyTorchMaterializer")])
           (world MemFS.saved)).
  - vm_compute. reflexivity.
  - vm_compute. reflexivity.
  - apply unicode_text_str_of.
  - apply unicode_text_str_of.
  - vm_compute. reflexivity.
  - vm_compute. reflexivity.
Defined.

Lemma tensorflow_version_directory_witness :
  prepare_service_config "/store/torch" "/out" (MemFS.step_config None None)
    (MemFS.start "tensorflow")
  = (Return 1,
     {| world := (MemFS.copy_dir "/store/torch" "/out/kserve/1"
                    (MemFS.makedirs "/out/kserve" MemFS.store).2).2;
        heap := [MemFS.deployment "tensorflow";
                 {| model_uri := "/out/kserve"; model_name := "mnist";
                    predictor := "tensorflow"; other_fields := 1 |}] |}).
Proof.
  apply (tensorflow_version_directory "/store/torch" "/out" (MemFS.step_config None None)
           (MemFS.deployment "tensorflow") (MemFS.start "tensorflow")).
  - reflexivity.
  - reflexivity.
  - exists (MemFS.makedirs "/out/kserve" MemFS.store).2,
           {| model_uri := "/out/kserve"; model_name := "mnist";
              predictor := "tensorflow"; other_fields := 1 |}.
    split_and!; vm_compute; reflexivity.
Defined.

(** A model artifact directory that does not exist: the copy raises, nothing
    is copied and nothing is returned. *)
Lemma tensorflow_copy_raises_counterexample :
  predictor (MemFS.deployment "tensorflow") = "tensorflow"
  ∧ prepare_service_config "/nowhere" "/out" (MemFS.step_config None None)
      (MemFS.start "tensorflow")
    = (Raise (Propagated FileNotFoundError),
       {| world := (MemFS.makedirs "/out/kserve" MemFS.store).2;
          heap := [MemFS.deployment "tensorflow"] |})
  ∧ MemFS.files (MemFS.makedirs "/out/kserve" MemFS.store).2 = MemFS.files MemFS.store.
Proof. split_and!; vm_compute; reflexivity. Qed.

Lemma archiver_ran_on_store (config : KServeDeployerStepConfig) (cfg : option string) :
  torch_serve_paramters config = Some (MemFS.torch_parameters cfg) →
  service_config config = 0%nat →
  archiver_ran "/store/torch" "/out" config (MemFS.deployment "pytorch")
    (MemFS.start "pytorch") "/tmp/zenml-pytorch-temp-" MemFS.archived.
Proof.
  intros Hp Hsc.
  exists (MemFS.torch_parameters cfg),
         (MemFS.makedirs "/out/kserve/model-store" MemFS.store).2,
         MemFS.folders_made,
         (MemFS.mkdtemp "zenml-pytorch-temp-" MemFS.folders_made).2,
         MemFS.checkpoint_fetched,
         "manifest mnist steps/handler.py",
         MemFS.checkpoint_fetched.
  split_and!; [exact Hp | vm_compute; reflexivity ..].
Qed.



Lemma torch_serving_layout_witness :
  ∃ served archive properties,
    prepare_torch_service_config "/store/torch" "/out" MemFS.torch_config_generated
      (MemFS.start "pytorch")
    = (Return 1,
       {| world := world MemFS.torch_served;
          heap := [MemFS.deployment "pytorch"; served] |})
    ∧ model_uri served = "/out/kserve"
    ∧ file_content MemFS.archived "/tmp/zenml-pytorch-temp-/mnist.mar" = Some archive
    ∧ file_content (world MemFS.torch_served) "/out/kserve/model-store/mnist.mar"
      = Some archive
    ∧ file_content MemFS.properties_generated
        "/tmp/zenml-pytorch-temp-/tmp0.properties" = Some properties
    ∧ file_content (world MemFS.torch_served) "/out/kserve/config/config.properties"
      = Some properties
    ∧ (Py.truthy (torch_config (MemFS.torch_parameters None)) = false →
       properties = deployer_config_text "mnist").
Proof.
  apply (torch_serving_layout (PlatformLaws0 := memfs_laws) "/store/torch" "/out"
           MemFS.torch_config_generated (MemFS.torch_parameters None)
           (MemFS.deployment "pytorch") (MemFS.start "pytorch")
           "/tmp/zenml-pytorch-temp-" MemFS.archived)
    with (w_stored := MemFS.package_stored)
         (w_ready := MemFS.properties_generated).
  - reflexivity.
  - reflexivity.
  - by apply (archiver_ran_on_store _ None).
  - vm_compute. reflexivity.
  - vm_compute. reflexivity.
  - vm_compute. reflexivity.
  - vm_compute. reflexivity.
Defined.

(** The parameters name a properties file that does not exist: the package
    is there, yet [config.properties] is not written and nothing is
    returned. *)
Lemma torch_copy_raises_counterexample :
  torch_serve_paramters MemFS.torch_config_given
  = Some (MemFS.torch_parameters (Some "/store/torch/config.properties"))
  ∧ archiver_ran "/store/torch" "/out" MemFS.torch_config_given
      (MemFS.deployment "pytorch") (MemFS.start "pytorch")
      "/tmp/zenml-pytorch-temp-" MemFS.archived
  ∧ fileio_exists "/tmp/zenml-pytorch-temp-/mnist.mar" MemFS.archived = true
  ∧ prepare_torch_service_config "/store/torch" "/out" MemFS.torch_config_given
      (MemFS.start "pytorch")
    = (Raise (Propagated FileNotFoundError),
       {| world := MemFS.package_stored; heap := [MemFS.deployment "pytorch"] |})
  ∧ file_content MemFS.package_stored "/out/kserve/config/config.properties" = None.
Proof.
  split_and!.
  - reflexivity.
  - by apply (archiver_ran_on_store _ (Some "/store/torch/config.properties")).
  - vm_compute. reflexivity.
  - vm_compute. reflexivity.
  - vm_compute. reflexivity.
Qed.

Lemma sklearn_model_file_witness :
  ((∃ msg, (prepare_service_config "/store/sk" "/out" (MemFS.step_config None None)
              (MemFS.start "sklearn")).1 = Raise (RuntimeError msg))
   ↔ fileio_exists "/store/sk/model" (MemFS.makedirs "/out/kserve" MemFS.store).2 = false)
  ∧ (fileio_exists "/store/sk/model" (MemFS.makedirs "/out/kserve" MemFS.store).2 = true →
     (∀ w2,
        fileio_copy "/store/sk/model" "/out/kserve/model.joblib"
          (MemFS.makedirs "/out/kserve" MemFS.store).2 = (Done (), w2) →
        ∃ served text,
          prepare_service_config "/store/sk" "/out" (MemFS.step_config None None)
            (MemFS.start "sklearn")
          = (Return 1, {| world := w2; heap := [MemFS.deployment "sklearn"; served] |})
          ∧ model_uri served = "/out/kserve"
          ∧ file_content (MemFS.makedirs "/out/kserve" MemFS.store).2 "/store/sk/model"
            = Some text
          ∧ file_content w2 "/out/kserve/model.joblib" = Some text)
     ∧ (∀ e w2,
          fileio_copy "/store/sk/model" "/out/kserve/model.joblib"
            (MemFS.makedirs "/out/kserve" MemFS.store).2 = (Failed e, w2) →
          prepare_service_config "/store/sk" "/out" (MemFS.step_config None None)
            (MemFS.start "sklearn")
          = (Raise (Propagated e), {| world := w2; heap := [MemFS.deployment "sklearn"] |}))).
Proof.
  apply (sklearn_model_file (PlatformLaws0 := memfs_laws) "/store/sk" "/out"
           (MemFS.step_config None None) (MemFS.deployment "sklearn")
           (MemFS.start "sklearn")).
  - reflexivity.
  - reflexivity.
  - vm_compute. reflexivity.
Defined.

(** A second call into the same output artifact: the file [model] exists,
    [model.joblib] is there from the first call, and the copy raises. *)
Lemma sklearn_copy_raises_counterexample :
  predictor (MemFS.deployment "sklearn") = "sklearn"
  ∧ prepare_service_config "/store/sk" "/out" (MemFS.step_config None None)
      (MemFS.start "sklearn")
    = (Return 1, MemFS.sklearn_served)
  ∧ fileio_exists "/store/sk/model" (world MemFS.sklearn_served) = true
  ∧ prepare_service_config "/store/sk" "/out" (MemFS.step_config None None)
      MemFS.sklearn_served
    = (Raise (Propagated FileExistsError), MemFS.sklearn_served).
Proof. split_and!; vm_compute; reflexivity. Qed.

Lemma custom_missing_stack_witness :
  (custom_deploy_paramters (MemFS.step_config None None) = None →
   prepare_custom_service_config "/store/torch" "/out" (MemFS.step_config None None)
     {| stack := None |} (MemFS.start "custom")
   = (Raise (RuntimeError "No custom deploy parameters provided"), MemFS.start "custom"))
  ∧ ((∃ msg, (prepare_custom_service_config "/store/torch" "/out" MemFS.custom_config
                {| stack := None |} (MemFS.start "custom")).1
             = Raise (DoesNotExistException msg))
     ↔ stack {| stack := None |} = None).
Proof.
  split.
  - apply (custom_missing_stack "/store/torch" "/out" (MemFS.step_config None None)
             {| stack := None |} (MemFS.start "custom")).
  - apply (proj1 (proj2 (custom_missing_stack "/store/torch" "/out" MemFS.custom_config
                           {| stack := None |} (MemFS.start "custom")))
             {| predict_function := "steps.predict" |}
             (MemFS.makedirs "/out/kserve" MemFS.store).2
             (MemFS.copy_dir "/store/torch" "/out/kserve"
                (MemFS.makedirs "/out/kserve" MemFS.store).2).2).
    + reflexivity.
    + vm_compute. reflexivity.
    + vm_compute. reflexivity.
Defined.

(** Custom deploy parameters, no stack, and a model directory that does not
    exist: the exception is the one of the copy, raised before the stack is
    looked at. *)
Lemma custom_copy_raises_counterexample :
  custom_deploy_paramters MemFS.custom_config
  = Some {| predict_function := "steps.predict" |}
  ∧ stack {| stack := None |} = None
  ∧ prepare_custom_service_config "/nowhere" "/out" MemFS.custom_config
      {| stack := None |} (MemFS.start "custom")
    = (Raise (Propagated FileNotFoundError),
       {| world := (MemFS.makedirs "/out/kserve" MemFS.store).2;
          heap := [MemFS.deployment "custom"] |}).
Proof. split_and!; vm_compute; reflexivity. Qed.

Lemma service_config_frame_witness :
  only_model_uri_reassigned (MemFS.step_config None None) (MemFS.start "sklearn") 1
    (prepare_service_config "/store/sk" "/out" (MemFS.step_config None None)
       (MemFS.start "sklearn")).2
  ∧ only_model_uri_reassigned MemFS.torch_config_generated (MemFS.start "pytorch") 1 MemFS.torch_served
  ∧ only_model_uri_reassigned MemFS.custom_config (MemFS.start "custom") 1
      (prepare_custom_service_config "/store/torch" "/out" MemFS.custom_config
         {| stack := Some MemFS.active_stack |} (MemFS.start "custom")).2.
Proof.
  destruct (service_config_frame (W := MemFS.fs) (F := nat)) as (Hs & Ht & Hc).
  split_and!.
  - apply (Hs "/store/sk" "/out"). vm_compute. reflexivity.
  - apply (Ht "/store/torch" "/out"). vm_compute. reflexivity.
  - apply (Hc "/store/torch" "/out" _ {| stack := Some MemFS.active_stack |}).
    vm_compute. reflexivity.
Defined.

Lemma push_image_checks_uri_witness :
  (∃ msg, Registry.push_image (Registry.new "" "some_uri" None None None)
            "wrong_uri/image_name" [] = (Raise (ValueError msg), []))
  ∧ Registry.push_image (Registry.new "" "some_uri" None None None)
      "some_uri/image_name" [] = (Return (), ["some_uri/image_name"]).
Proof.
  split.
  - apply (push_image_checks_uri (Registry.new "" "some_uri" None None None)
             "wrong_uri/image_name" []).
    intros [rest Hrest]. vm_compute in Hrest. discriminate.
  - apply (push_image_checks_uri (Registry.new "" "some_uri" None None None)
             "some_uri/image_name" []).
    by exists "/image_name".
Defined.

Lemma uri_trailing_slashes_removed_witness :
  Registry.uri (Registry.new "" "localhost:8000" None None None) = "localhost:8000".
Proof.
  apply (uri_trailing_slashes_removed "" "localhost:8000" None None None).
  reflexivity.
Defined.

Lemma requires_authentication_spec_witness :
  Registry.requires_authentication
    (Registry.new "" "" (Some "username") (Some "password") None) = true.
Proof.
  apply (proj1 (proj2 requires_authentication_spec)).
  left. split; by eexists.
Defined.

(** * Further properties of [kserve_step_utils.py] *)

(** ** A call that raises allocates nothing *)
Section heap_safety.
Context {W F : Type} `{!Platform W}.
Implicit Types (s : state W F) (config : KServeDeployerStepConfig).

Lemma keeps_heap_call {A} (op : W → answer A * W) : keeps_heap (F := F) (call op).
Proof.
  intros s o s'. unfold call. destruct (op (world s)) as [[a|e] w]; by intros [= <- <-].
Qed.

Lemma keeps_heap_ask {A} (q : W → A) : keeps_heap (F := F) (ask q).
Proof. intros s o s'. by intros [= <- <-]. Qed.

Lemma keeps_heap_deref (l : nat) : keeps_heap (W := W) (F := F) (deref l).
Proof. intros s o s'. unfold deref. destruct (heap s !! l); by intros [= <- <-]. Qed.

Lemma keeps_heap_ret {A} (a : A) : keeps_heap (W := W) (F := F) (ret a).
Proof. intros s o s'. by intros [= <- <-]. Qed.

Lemma keeps_heap_raise {A} (e : exn) : keeps_heap (W := W) (F := F) (A := A) (raise e).
Proof. intros s o s'. by intros [= <- <-]. Qed.

Lemma keeps_heap_bind {A B} (m : M W F A) (k : A → M W F B) :
  keeps_heap m → (∀ a, keeps_heap (k a)) → keeps_heap (bind m k).
Proof.
  intros Hm Hk s o s'. unfold bind. destruct (m s) as [[a|e] s1] eqn:E.
  - intros Hka. rewrite (Hk _ _ _ _ Hka). by eapply Hm.
  - intros [= <- <-]. by eapply Hm.
Qed.

Lemma on_raise_bind {A B} (m : M W F A) (k : A → M W F B) :
  keeps_heap m → (∀ a, keeps_heap_on_raise (k a)) → keeps_heap_on_raise (bind m k).
Proof.
  intros Hm Hk s e s'. unfold bind. destruct (m s) as [[a|e'] s1] eqn:E.
  - intros Hka. rewrite (Hk _ _ _ _ Hka). by eapply Hm.
  - intros [= <- <-]. by eapply Hm.
Qed.

Lemma on_raise_of_keeps {A} (m : M W F A) : keeps_heap m → keeps_heap_on_raise m.
Proof. intros Hm s e s'. apply Hm. Qed.

Lemma on_raise_copy_assign (l : nat) (v : string) :
  keeps_heap_on_raise (W := W) (F := F)
    (bind (copy l) (λ c, bind (set_model_uri c v) (λ _, ret c))).
Proof.
  intros s e s'. destruct (heap s !! l) as [o|] eqn:Hl.
  - by rewrite (copy_assign _ _ _ _ Hl).
  - unfold bind, copy. rewrite Hl. by intros [= <- <-].
Qed.

Lemma keeps_heap_save (served : string) (a : Artifact) :
  keeps_heap (F := F) (save_to_json_zenml_artifact served a).
Proof.
  unfold save_to_json_zenml_artifact.
  apply keeps_heap_bind; [apply keeps_heap_call | intros; apply keeps_heap_call].
Qed.

Ltac heap_steps :=
  repeat first
    [ apply keeps_heap_call | apply keeps_heap_ask | apply keeps_heap_deref
    | apply keeps_heap_ret | apply keeps_heap_raise | apply keeps_heap_save
    | apply keeps_heap_bind; [|intros] ].

Lemma service_keeps_heap_on_raise (model_uri output_artifact_uri : string) config :
  keeps_heap_on_raise (W := W) (F := F)
    (prepare_service_config model_uri output_artifact_uri config).
Proof.
  unfold prepare_service_config.
  apply on_raise_bind; [apply keeps_heap_call | intros _].
  apply on_raise_bind; [apply keeps_heap_deref | intros sc].
  apply on_raise_bind; [|intros; apply on_raise_copy_assign].
  destruct (String.eqb _ "tensorflow"); [heap_steps|].
  destruct (String.eqb _ "sklearn"); [|heap_steps].
  apply keeps_heap_bind; [heap_steps | intros found].
  destruct (negb found); heap_steps.
Qed.

Lemma torch_keeps_heap_on_raise (model_uri output_artifact_uri : string) config :
  keeps_heap_on_raise (W := W) (F := F)
    (prepare_torch_service_config model_uri output_artifact_uri config).
Proof.
  unfold prepare_torch_service_config.
  apply on_raise_bind; [apply keeps_heap_call | intros _].
  apply on_raise_bind; [apply keeps_heap_call | intros _].
  apply on_raise_bind; [|intros; apply on_raise_copy_assign].
  destruct (torch_serve_paramters config) as [params|]; [|heap_steps].
  heap_steps.
  destruct (negb _); [heap_steps|].
  apply keeps_heap_bind; [heap_steps | intros _].
  destruct (Py.truthy _); [heap_steps|].
  unfold generate_model_deployer_config. heap_steps.
Qed.

Lemma custom_keeps_heap_on_raise (model_uri output_artifact_uri : string) config
    (context : StepContext) :
  keeps_heap_on_raise (W := W) (F := F)
    (prepare_custom_service_config model_uri output_artifact_uri config context).
Proof.
  unfold prepare_custom_service_config.
  destruct (custom_deploy_paramters config); [|apply on_raise_of_keeps; heap_steps].
  apply on_raise_bind; [apply keeps_heap_call | intros _].
  apply on_raise_bind; [apply keeps_heap_call | intros _].
  destruct (stack context) as [st|]; [|apply on_raise_of_keeps; heap_steps].
  destruct (get_artifacts_by_uri st model_uri); [apply on_raise_of_keeps; heap_steps|].
  apply on_raise_bind; [apply keeps_heap_save | intros; apply on_raise_copy_assign].
Qed.

(** X2. When [prepare_service_config], [prepare_torch_service_config] or
    [prepare_custom_service_config] raises, whatever the exception, the heap
    is as the call found it: no copy of the service config has been made and
    no object has been assigned to. *)
Theorem raise_allocates_nothing :
  (∀ (model_uri output_artifact_uri : string) config s e s',
     prepare_service_config model_uri output_artifact_uri config s = (Raise e, s') →
     heap s' = heap s)
  ∧ (∀ (model_uri output_artifact_uri : string) config s e s',
       prepare_torch_service_config model_uri output_artifact_uri config s
       = (Raise e, s') →
       heap s' = heap s)
  ∧ (∀ (model_uri output_artifact_uri : string) config context s e s',
       prepare_custom_service_config model_uri output_artifact_uri config context s
       = (Raise e, s') →
       heap s' = heap s).
Proof.
  split_and!; intros model_uri out config.
  - apply service_keeps_heap_on_raise.
  - apply torch_keeps_heap_on_raise.
  - intros context. apply custom_keeps_heap_on_raise.
Qed.

End heap_safety.


(** ** Which exceptions, and when *)
Section more_outcomes.
Context {W F : Type} `{!Platform W}.
Implicit Types (s : state W F) (config : KServeDeployerStepConfig).

(** X1. For a predictor that is neither [tensorflow] nor [sklearn],
    [prepare_service_config] returns exactly when the [kserve] folder can be
    made; the world is then the one [makedirs] leaves, nothing having been
    copied, and the service config returned is a new object whose
    [model_uri] is the model artifact's own URI and whose other fields are
    those of [config.service_config]. *)
Theorem other_predictors_serve_in_place
    (model_uri output_artifact_uri : string) config sc s (loc : nat) s' :
  heap s !! service_config config = Some sc →
  predictor sc ≠ "tensorflow" →
  predictor sc ≠ "sklearn" →
  prepare_service_config model_uri output_artifact_uri config s = (Return loc, s')
  ↔ ∃ served,
      fileio_makedirs (output_artifact_uri </> "kserve") (world s) = (Done (), world s')
      ∧ loc = length (heap s)
      ∧ heap s' = (heap s ++ [served])%list
      ∧ KServe.model_uri served = model_uri
      ∧ model_name served = model_name sc
      ∧ predictor served = predictor sc
      ∧ other_fields served = other_fields sc.
Proof.
  intros Hsc Ht Hk. apply String.eqb_neq in Ht, Hk.
  unfold prepare_service_config. split.
  - intros Hrun. invert_call Hrun as [] s1 H1 Hh1.
    apply bind_return in Hrun as (sc' & s2 & Hd & Hrun).
    apply deref_return in Hd as [Hd ->].
    rewrite Hh1, Hsc in Hd. injection Hd as <-.
    rewrite Ht, Hk, ret_step in Hrun.
    apply copy_assign_return in Hrun as (o & Ho & -> & Hw & Hh).
    rewrite Hh1 in Ho, Hh |- *. rewrite Hsc in Ho. injection Ho as <-.
    exists (with_model_uri sc model_uri). rewrite Hw. by split_and!.
  - intros (served & H1 & -> & Hh & Hu & Hn & Hpr & Ho).
    rewrite (assigned_object sc served _ Hu Hn Hpr Ho) in Hh.
    run_call H1. run_deref. rewrite Ht, Hk, ret_step.
    erewrite copy_assign by (cbn [heap]; exact Hsc). cbn [heap world].
    rewrite <- Hh. by destruct s'.
Qed.

(** X3. An exception of [prepare_service_config] is either the exception of
    a platform call, or the [RuntimeError] of the [sklearn] predictor: then
    the predictor is [sklearn], the message names the file [model] under the
    model artifact, the [kserve] folder has been made and the file does not
    exist. For no other predictor does the function raise [RuntimeError]. *)
Theorem service_config_raises
    (model_uri output_artifact_uri : string) config sc s (e : exn) s' :
  heap s !! service_config config = Some sc →
  prepare_service_config model_uri output_artifact_uri config s = (Raise e, s') →
  (∃ pe, e = Propagated pe)
  ∨ (predictor sc = "sklearn"
     ∧ e = RuntimeError ("Expected sklearn model artifact was not found at "
                         ++ (model_uri </> "model"))
     ∧ fileio_makedirs (output_artifact_uri </> "kserve") (world s) = (Done (), world s')
     ∧ fileio_exists (model_uri </> "model") (world s') = false).
Proof.
  intros Hsc. unfold prepare_service_config.
  call_or_fail H1; [destruct a|intros [= <- <-]; eauto].
  run_deref.
  destruct (String.eqb (predictor sc) "tensorflow") eqn:Ht.
  { rewrite bind_assoc. call_or_fail H2; [destruct a|intros [= <- <-]; eauto].
    rewrite ret_step. by erewrite copy_assign by (cbn [heap]; exact Hsc). }
  destruct (String.eqb (predictor sc) "sklearn") eqn:Hk.
  - apply String.eqb_eq in Hk. rewrite bind_assoc, ask_step. cbn [world].
    destruct (fileio_exists _ w) eqn:Hex; cbn [negb].
    + rewrite bind_assoc. call_or_fail H2; [destruct a|intros [= <- <-]; eauto].
      rewrite ret_step. by erewrite copy_assign by (cbn [heap]; exact Hsc).
    + intros [= <- <-]. right. by split_and!.
  - rewrite ret_step. by erewrite copy_assign by (cbn [heap]; exact Hsc).
Qed.

(** X4. Without torch serve parameters, [prepare_torch_service_config]
    raises [RuntimeError] exactly when both folders, [model-store] and
    [config], could be made first: the parameters are tested after the
    folders are created, and the world at the raise holds them. *)
Theorem torch_parameters_checked_after_folders
    (model_uri output_artifact_uri : string) config s :
  torch_serve_paramters config = None →
  ((∃ msg, (prepare_torch_service_config model_uri output_artifact_uri config s).1
           = Raise (RuntimeError msg))
   ↔ ∃ w1 w2,
       fileio_makedirs (output_artifact_uri </> "kserve" </> "model-store") (world s)
       = (Done (), w1)
       ∧ fileio_makedirs (output_artifact_uri </> "kserve" </> "config") w1
         = (Done (), w2))
  ∧ ∀ w1 w2,
      fileio_makedirs (output_artifact_uri </> "kserve" </> "model-store") (world s)
      = (Done (), w1) →
      fileio_makedirs (output_artifact_uri </> "kserve" </> "config") w1 = (Done (), w2) →
      prepare_torch_service_config model_uri output_artifact_uri config s
      = (Raise (RuntimeError "No torch serve parameters provided"),
         {| world := w2; heap := heap s |}).
Proof.
  intros Hp. unfold prepare_torch_service_config. rewrite Hp. split.
  - call_or_fail H1;
      [destruct a|split; [by intros [] | intros (w1 & w2 & H1' & _); congruence]].
    call_or_fail H2; [destruct a|].
    + split; [eauto | by eexists].
    + split; [by intros [] | intros (w1 & w2 & H1' & H2')].
      cbn [world] in H2. congruence.
  - intros w1 w2 H1 H2. run_call H1. by run_call H2.
Qed.

(** X5. [prepare_custom_service_config] raises [RuntimeError] if and only
    if the custom deploy parameters are [None], whatever the platform
    does. *)
Theorem custom_runtime_error
    (model_uri output_artifact_uri : string) config (context : StepContext) s :
  (∃ msg, (prepare_custom_service_config model_uri output_artifact_uri config context s).1
          = Raise (RuntimeError msg))
  ↔ custom_deploy_paramters config = None.
Proof.
  unfold prepare_custom_service_config. split.
  - destruct (custom_deploy_paramters config) as [params|]; [|done].
    call_or_fail H1; [destruct a|by intros []].
    call_or_fail H2; [destruct a|by intros []].
    destruct (stack context) as [st|]; [|by intros []].
    destruct (get_artifacts_by_uri st model_uri) as [|a0 rest]; [by intros []|].
    unfold save_to_json_zenml_artifact. rewrite bind_assoc.
    call_or_fail H3; [|by intros []].
    call_or_fail H4; [destruct a1|by intros []].
    intros [msg Hrun]. exfalso.
    match type of Hrun with (?r).1 = _ => destruct r as [o s'] eqn:Hr end.
    cbn [fst] in Hrun. subst o.
    apply bind_raise in Hr as [Hr|(? & s4 & Hr2 & Hr)].
    + unfold copy in Hr. by destruct (heap _ !! service_config config).
    + apply bind_raise in Hr as [Hr|(? & s5 & Hr3 & Hr)]; [|done].
      unfold set_model_uri in Hr. by destruct (heap s4 !! _).
  - intros ->. by eexists.
Qed.

(** X6. With parameters and a stack, once the [kserve] folder is made and
    the model directory copied, [prepare_custom_service_config] raises
    [IndexError] if and only if the metadata store knows no artifact for the
    model URI; the copy has been made by then and no metadata file is
    written. *)
Theorem custom_artifact_missing
    (model_uri output_artifact_uri : string) config (context : StepContext)
    params st s (w1 w2 : W) :
  custom_deploy_paramters config = Some params →
  stack context = Some st →
  fileio_makedirs (output_artifact_uri </> "kserve") (world s) = (Done (), w1) →
  io_utils_copy_dir model_uri (output_artifact_uri </> "kserve") w1 = (Done (), w2) →
  ((prepare_custom_service_config model_uri output_artifact_uri config context s).1
   = Raise IndexError
   ↔ get_artifacts_by_uri st model_uri = [])
  ∧ (get_artifacts_by_uri st model_uri = [] →
     prepare_custom_service_config model_uri output_artifact_uri config context s
     = (Raise IndexError, {| world := w2; heap := heap s |})).
Proof.
  intros Hc Hst H1 H2. unfold prepare_custom_service_config. rewrite Hc.
  run_call H1. run_call H2. rewrite Hst.
  destruct (get_artifacts_by_uri st model_uri) as [|a0 rest]; [done|].
  split; [|done]. split; [|done].
  unfold save_to_json_zenml_artifact. rewrite bind_assoc.
  call_or_fail H3; [|done].
  call_or_fail H4; [destruct a1|done].
  intros Hrun. exfalso.
  match type of Hrun with (?r).1 = _ => destruct r as [o s'] eqn:Hr end.
  cbn [fst] in Hrun. subst o.
  apply bind_raise in Hr as [Hr|(? & s4 & Hr2 & Hr)].
  - unfold copy in Hr. by destruct (heap _ !! service_config config).
  - apply bind_raise in Hr as [Hr|(? & s5 & Hr3 & Hr)]; [|done].
    unfold set_model_uri in Hr. by destruct (heap s4 !! _).
Qed.

End more_outcomes.

(** ** The metadata file is ASCII *)
Section ascii_only.
Import Json.

Lemma printable_nil : printable_ascii "".
Proof. constructor. Qed.

Lemma printable_cons (a : ascii) (s : string) :
  (32 ≤ N_of_ascii a ≤ 126)%N → printable_ascii s → printable_ascii (String a s).
Proof. intros Ha Hs. by constructor. Qed.

Lemma printable_append (a b : string) :
  printable_ascii a → printable_ascii b → printable_ascii (a ++ b).
Proof.
  intros Ha Hb. induction a as [|x a IH]; norm_append; [done|].
  inversion Ha; subst. apply printable_cons; auto.
Qed.

Lemma hex_digit_printable (d : N) : (d < 16)%N → (32 ≤ N_of_ascii (hex_digit d) ≤ 126)%N.
Proof.
  intros Hd. destruct d as [|p]; [by vm_compute|].
  do 4 (try destruct p as [p|p|]); solve [by vm_compute | exfalso; lia].
Qed.

Lemma u_escape_printable (n : N) : printable_ascii (u_escape n).
Proof.
  unfold u_escape, format_04x.
  repeat (apply printable_cons;
          [first [by vm_compute | apply hex_digit_printable; by apply N.mod_lt]|]).
  apply printable_nil.
Qed.

Lemma replace_printable (c : N) : printable_ascii (replace c).
Proof.
  unfold replace.
  repeat (match goal with |- context [if ?b then _ else _] => destruct b end;
          [repeat (apply printable_cons; [by vm_compute|]); apply printable_nil|]).
  destruct (c <? 65536)%N; [apply u_escape_printable|].
  apply printable_append; apply u_escape_printable.
Qed.

Lemma escape_ascii_printable (s : pystr) : printable_ascii (escape_ascii s).
Proof.
  induction s as [|c s IH]; [apply printable_nil|]. cbn [escape_ascii].
  apply printable_append; [|done].
  destruct (ESCAPE_ASCII c) eqn:Hesc; [apply replace_printable|].
  unfold ESCAPE_ASCII in Hesc.
  apply orb_false_elim in Hesc as [_ Hrange].
  apply negb_false_iff, andb_prop in Hrange as [Hlo Hhi].
  apply N.leb_le in Hlo, Hhi.
  apply printable_cons; [|apply printable_nil].
  rewrite N_ascii_embedding by lia. lia.
Qed.

Lemma encode_basestring_printable (s : pystr) :
  printable_ascii (encode_basestring_ascii s).
Proof.
  unfold encode_basestring_ascii. apply printable_cons; [by vm_compute|].
  apply printable_append; [apply escape_ascii_printable|].
  apply printable_cons; [by vm_compute | apply printable_nil].
Qed.

Lemma iterencode_items_printable (first : bool) (items : list (pystr * pystr)) :
  printable_ascii (iterencode_items first items).
Proof.
  revert first. induction items as [|[k v] items IH]; intros first; [apply printable_nil|].
  cbn [iterencode_items].
  apply printable_append; [destruct first; by repeat constructor|].
  apply printable_append; [apply encode_basestring_printable|].
  apply printable_append; [by repeat constructor|].
  apply printable_append; [apply encode_basestring_printable | apply IH].
Qed.

Lemma dumps_printable (items : list (pystr * pystr)) : printable_ascii (dumps items).
Proof.
  unfold dumps. destruct items as [|kv items]; [by repeat constructor|].
  apply printable_append; [by repeat constructor|].
  apply printable_append; [apply iterencode_items_printable | by repeat constructor].
Qed.

End ascii_only.


(** ** Lines of a text *)
Section lines.
Import Py.

Lemma contains_append (a b : string) (c : ascii) :
  contains (a ++ b) c = contains a c || contains b c.
Proof.
  induction a as [|x a IH]; norm_append; [done|].
  cbn [contains]. by rewrite IH, orb_assoc.
Qed.

Lemma split_without (s : string) (c : ascii) : contains s c = false → split s c = [s].
Proof.
  induction s as [|a s IH]; [done|]. cbn [contains split].
  intros [Ha Hs]%orb_false_elim. by rewrite Ha, IH.
Qed.

Lemma split_field (field rest : string) (c : ascii) :
  contains field c = false →
  split (field ++ String c rest) c = field :: split rest c.
Proof.
  induction field as [|a field IH]; norm_append; cbn [contains split].
  - intros _. by rewrite Ascii.eqb_refl.
  - intros [Ha Hf]%orb_false_elim. by rewrite Ha, IH.
Qed.

Lemma split_lines (lines : list string) (last : string) :
  Forall (λ line, contains line "010" = false) lines →
  contains last "010" = false →
  split (foldr (λ line acc, line ++ newline ++ acc) last lines) "010"
  = (lines ++ [last])%list.
Proof.
  intros Hlines Hlast. induction Hlines as [|line lines Hline _ IH]; cbn [foldr].
  - by apply split_without.
  - unfold newline at 1. norm_append. by rewrite split_field, IH.
Qed.

Lemma model_snapshot_one_line (model_name : string) :
  contains model_name "010" = false → contains (model_snapshot model_name) "010" = false.
Proof.
  intros Hn. unfold model_snapshot, quoted.
  norm_append. cbn [contains]. 
  repeat (rewrite ?contains_append; cbn [contains Ascii.eqb Bool.eqb orb]; rewrite ?Hn).
  done.
Qed.

End lines.


(** ** The files the module writes *)
Section metadata_file.
Context {W F : Type} `{!Platform W} `{!PlatformLaws W}.
Implicit Types (s : state W F).

Lemma save_writes (served_model_uri : string) (artifact : Artifact) s s1 :
  save_to_json_zenml_artifact served_model_uri artifact s = (Return (), s1) →
  file_content (world s1) (served_model_uri </> ARTIFACT_FILE)
  = Some (Json.dumps
            [(str_of "datatype", string_value (properties_get artifact "datatype"));
             (str_of "materializer",
              string_value (properties_get artifact "materializer"))])
  ∧ heap s1 = heap s.
Proof.
  intros Hsave. unfold save_to_json_zenml_artifact in Hsave.
  invert_call Hsave as name s0 Hc Hh. apply call_return in Hsave as [Hcopy Hh'].
  apply temporary_content in Hc.
  destruct (copy_content _ _ _ _ Hcopy) as (written & Hw & Hdst).
  split; congruence.
Qed.

Lemma load_from_object (model_file_dir : string) (items : list (pystr * pystr))
    s (w2 : W) :
  Forall (λ kv, Json.unicode_text kv.1 ∧ Json.unicode_text kv.2) items →
  fileio_open_read (model_file_dir </> ARTIFACT_FILE) (world s)
  = (Done (Json.dumps items), w2) →
  load_from_json_zenml_artifact model_file_dir s
  = (match Json.dict items !! str_of "datatype",
           Json.dict items !! str_of "materializer" with
     | Some d, Some m =>
         Return {| uri := model_file_dir;
                   properties := <["materializer" := StringValue m]>
                                   (<["datatype" := StringValue d]> ∅) |}
     | None, _ => Raise (KeyError "datatype")
     | Some _, None => Raise (KeyError "materializer")
     end, {| world := w2; heap := heap s |}).
Proof.
  intros Hitems Hread. unfold load_from_json_zenml_artifact. run_call Hread.
  rewrite loads_dumps by done. unfold getitem.
  destruct (Json.dict items !! str_of "datatype") as [d|]; [|done].
  rewrite ret_step.
  destruct (Json.dict items !! str_of "materializer") as [m|]; [|done].
  by rewrite ret_step.
Qed.

(** X13. [save_to_json_zenml_artifact] changes the text of no file that was
    there, the metadata file apart. *)
Theorem save_touches_nothing_else
    (served_model_uri : string) (artifact : Artifact) s s1 (p c : string) :
  save_to_json_zenml_artifact served_model_uri artifact s = (Return (), s1) →
  p ≠ served_model_uri </> ARTIFACT_FILE →
  file_content (world s) p = Some c →
  file_content (world s1) p = Some c.
Proof.
  intros Hsave Hp Hc. unfold save_to_json_zenml_artifact in Hsave.
  invert_call Hsave as name s0 Hw Hh. apply call_return in Hsave as [Hcopy _].
  rewrite (copy_frame _ _ _ _ p Hcopy Hp). by eapply temporary_frame.
Qed.

(** X7. The metadata file [save_to_json_zenml_artifact] writes is made of
    printable ASCII characters only, whatever the two strings hold. *)
Theorem metadata_file_is_ascii (served_model_uri : string) (artifact : Artifact) s s1 :
  save_to_json_zenml_artifact served_model_uri artifact s = (Return (), s1) →
  ∃ text,
    file_content (world s1) (served_model_uri </> ARTIFACT_FILE) = Some text
    ∧ Json.printable_ascii text.
Proof.
  intros Hsave. apply save_writes in Hsave as [Hfile _].
  eexists. split; [exact Hfile | apply dumps_printable].
Qed.

(** X8. The artifact loaded from what [save_to_json_zenml_artifact] wrote
    has the directory as its [uri] and exactly two properties, [datatype]
    and [materializer], holding the string values of the saved artifact's;
    a property the saved artifact lacks, or that holds no string, comes back
    as the empty string, and every other property is gone. *)
Theorem metadata_is_all_that_is_kept
    (served_model_uri : string) (artifact : Artifact) s s1 (text : string) (w2 : W) :
  Json.unicode_text (string_value (properties_get artifact "datatype")) →
  Json.unicode_text (string_value (properties_get artifact "materializer")) →
  save_to_json_zenml_artifact served_model_uri artifact s = (Return (), s1) →
  fileio_open_read (served_model_uri </> ARTIFACT_FILE) (world s1) = (Done text, w2) →
  load_from_json_zenml_artifact served_model_uri s1
  = (Return
       {| uri := served_model_uri;
          properties :=
            <["materializer" :=
                StringValue (string_value (properties_get artifact "materializer"))]>
              (<["datatype" :=
                   StringValue (string_value (properties_get artifact "datatype"))]> ∅) |},
     {| world := w2; heap := heap s1 |}).
Proof.
  intros Hd Hm Hsave Hread. apply save_writes in Hsave as [Hfile _].
  pose proof (open_read_content _ _ _ _ Hread) as Htext.
  assert (text = Json.dumps
            [(str_of "datatype", string_value (properties_get artifact "datatype"));
             (str_of "materializer",
              string_value (properties_get artifact "materializer"))]) as ->
    by congruence.
  erewrite load_from_object; [|  |exact Hread].
  - unfold Json.dict. cbn [foldl fst snd].
    rewrite lookup_insert_ne by done. by rewrite !lookup_insert_eq.
  - repeat (apply Forall_cons_2; [split; [apply unicode_text_str_of | done]|]).
    apply Forall_nil_2.
Qed.

(** X9. On a metadata file whose text is what [json.dump] writes for a
    dictionary [items] of strings, [load_from_json_zenml_artifact] rebuilds
    the artifact from the values of [datatype] and [materializer], whatever
    else the dictionary holds and in whatever order; it raises [KeyError]
    for [datatype] when that key is missing, and for [materializer] when
    only that one is. *)
Theorem load_needs_both_keys (model_file_dir : string) (items : list (pystr * pystr))
    s (w2 : W) :
  Forall (λ kv, Json.unicode_text kv.1 ∧ Json.unicode_text kv.2) items →
  fileio_open_read (model_file_dir </> ARTIFACT_FILE) (world s)
  = (Done (Json.dumps items), w2) →
  (∀ d m,
     Json.dict items !! str_of "datatype" = Some d →
     Json.dict items !! str_of "materializer" = Some m →
     load_from_json_zenml_artifact model_file_dir s
     = (Return {| uri := model_file_dir;
                  properties := <["materializer" := StringValue m]>
                                  (<["datatype" := StringValue d]> ∅) |},
        {| world := w2; heap := heap s |}))
  ∧ (Json.dict items !! str_of "datatype" = None →
     load_from_json_zenml_artifact model_file_dir s
     = (Raise (KeyError "datatype"), {| world := w2; heap := heap s |}))
  ∧ (is_Some (Json.dict items !! str_of "datatype") →
     Json.dict items !! str_of "materializer" = None →
     load_from_json_zenml_artifact model_file_dir s
     = (Raise (KeyError "materializer"), {| world := w2; heap := heap s |})).
Proof.
  intros Hitems Hread. rewrite (load_from_object _ _ _ _ Hitems Hread).
  split_and!.
  - by intros d m -> ->.
  - by intros ->.
  - by intros [d ->] ->.
Qed.

(** X10. The file whose name [generate_model_deployer_config] returns
    holds, for a model name without a newline, the twelve fixed settings and
    then the snapshot of the model, one per line and with no newline after
    the last; the files that were there keep their text. *)
Theorem generated_config_lines (model_name directory : string) s (path : string) s' :
  Py.contains model_name "010" = false →
  generate_model_deployer_config model_name directory s = (Return path, s') →
  ∃ text,
    file_content (world s') path = Some text
    ∧ Py.split text "010" = (config_lines ++ [model_snapshot model_name])%list
    ∧ (∀ p c, file_content (world s) p = Some c → file_content (world s') p = Some c)
    ∧ heap s' = heap s.
Proof.
  intros Hn Hrun. unfold generate_model_deployer_config in Hrun.
  apply call_return in Hrun as [Hrun Hh].
  exists (deployer_config_text model_name). split_and!.
  - by eapply temporary_content.
  - unfold deployer_config_text. apply split_lines.
    + by repeat constructor.
    + by apply model_snapshot_one_line.
  - intros p c Hp. by eapply temporary_frame.
  - done.
Qed.

(** X11. When [prepare_custom_service_config] returns, the [model_uri] of
    the service config it returns is the [kserve] folder, and
    [load_from_json_zenml_artifact] on that [model_uri] rebuilds the
    [datatype] and [materializer] of the first artifact the metadata store
    gave for the model URI. *)
Theorem custom_metadata_is_loaded
    (model_uri output_artifact_uri : string) (config : KServeDeployerStepConfig)
    (context : StepContext) (st : Stack) (artifact_0 : Artifact) (rest : list Artifact)
    s (loc : nat) s' (text : string) (w2 : W) :
  stack context = Some st →
  get_artifacts_by_uri st model_uri = artifact_0 :: rest →
  Json.unicode_text (string_value (properties_get artifact_0 "datatype")) →
  Json.unicode_text (string_value (properties_get artifact_0 "materializer")) →
  prepare_custom_service_config model_uri output_artifact_uri config context s
  = (Return loc, s') →
  fileio_open_read (output_artifact_uri </> "kserve" </> ARTIFACT_FILE) (world s')
  = (Done text, w2) →
  ∃ served,
    heap s' !! loc = Some served
    ∧ KServe.model_uri served = output_artifact_uri </> "kserve"
    ∧ load_from_json_zenml_artifact (KServe.model_uri served) s'
      = (Return
           {| uri := output_artifact_uri </> "kserve";
              properties :=
                <["materializer" :=
                    StringValue (string_value (properties_get artifact_0 "materializer"))]>
                  (<["datatype" :=
                       StringValue (string_value (properties_get artifact_0 "datatype"))]>
                     ∅) |},
         {| world := w2; heap := heap s' |}).
Proof.
  intros Hst Harts Hd Hm Hrun Hread. unfold prepare_custom_service_config in Hrun.
  destruct (custom_deploy_paramters config) as [params|]; [|done].
  invert_call Hrun as [] s1 H1 Hh1. invert_call Hrun as [] s2 H2 Hh2.
  rewrite Hst, Harts in Hrun.
  apply bind_return in Hrun as ([] & s3 & Hsave & Hrun).
  apply save_writes in Hsave as [Hfile Hh3].
  apply copy_assign_return in Hrun as (o & Ho & -> & Hw & Hh).
  exists (with_model_uri o (output_artifact_uri </> "kserve")).
  split; [rewrite Hh; by apply list_lookup_middle|]. split; [done|].
  cbn [KServe.model_uri with_model_uri]. rewrite <- Hw in Hfile.
  pose proof (open_read_content _ _ _ _ Hread) as Htext.
  assert (text = Json.dumps
            [(str_of "datatype", string_value (properties_get artifact_0 "datatype"));
             (str_of "materializer",
              string_value (properties_get artifact_0 "materializer"))]) as ->
    by congruence.
  erewrite load_from_object; [| |exact Hread].
  - unfold Json.dict. cbn [foldl fst snd].
    rewrite lookup_insert_ne by done. by rewrite !lookup_insert_eq.
  - repeat (apply Forall_cons_2; [split; [apply unicode_text_str_of | done]|]).
    apply Forall_nil_2.
Qed.

End metadata_file.

(** ** The further properties on the in-memory platform

    Each property above that has a premise is run once on [MemFS], from the
    store of the examples. *)

Lemma other_predictors_serve_in_place_witness :
  prepare_service_config "/store/torch" "/out" (MemFS.step_config None None)
    (MemFS.start "xgboost")
  = (Return 1,
     {| world := (MemFS.makedirs "/out/kserve" MemFS.store).2;
        heap := [MemFS.deployment "xgboost";
                 {| model_uri := "/store/torch"; model_name := "mnist";
                    predictor := "xgboost"; other_fields := 1 |}] |}).
Proof.
  apply (other_predictors_serve_in_place "/store/torch" "/out"
           (MemFS.step_config None None) (MemFS.deployment "xgboost")
           (MemFS.start "xgboost")).
  - reflexivity.
  - discriminate.
  - discriminate.
  - exists {| model_uri := "/store/torch"; model_name := "mnist";
              predictor := "xgboost"; other_fields := 1 |}.
    split_and!; vm_compute; reflexivity.
Defined.

Lemma raise_allocates_nothing_witness :
  heap (prepare_service_config "/store/torch" "/out" (MemFS.step_config None None)
          (MemFS.start "sklearn")).2
  = heap (MemFS.start "sklearn")
  ∧ heap (prepare_torch_service_config "/store/sk" "/out" MemFS.torch_config_generated
            (MemFS.start "pytorch")).2
    = heap (MemFS.start "pytorch")
  ∧ heap (prepare_custom_service_config "/store/torch" "/out" MemFS.custom_config
            {| stack := None |} (MemFS.start "custom")).2
    = heap (MemFS.start "custom").
Proof.
  destruct (raise_allocates_nothing (W := MemFS.fs) (F := nat)) as (Hs & Ht & Hc).
  split_and!.
  - apply (Hs "/store/torch" "/out" (MemFS.step_config None None) _
             (RuntimeError
                "Expected sklearn model artifact was not found at /store/torch/model")).
    vm_compute. reflexivity.
  - apply (Ht "/store/sk" "/out" MemFS.torch_config_generated _
             (Propagated FileNotFoundError)).
    vm_compute. reflexivity.
  - apply (Hc "/store/torch" "/out" MemFS.custom_config {| stack := None |} _
             (DoesNotExistException
                ("No active stack is available. "
                 ++ "Please make sure that you have registered and set a stack."))).
    vm_compute. reflexivity.
Defined.

Lemma service_config_raises_witness :
  (∃ pe, RuntimeError "Expected sklearn model artifact was not found at /store/torch/model"
         = Propagated pe)
  ∨ (predictor (MemFS.deployment "sklearn") = "sklearn"
     ∧ RuntimeError "Expected sklearn model artifact was not found at /store/torch/model"
       = RuntimeError ("Expected sklearn model artifact was not found at "
                       ++ ("/store/torch" </> "model"))
     ∧ fileio_makedirs ("/out" </> "kserve") (world (MemFS.start "sklearn"))
       = (Done (), (MemFS.makedirs "/out/kserve" MemFS.store).2)
     ∧ fileio_exists ("/store/torch" </> "model")
         (MemFS.makedirs "/out/kserve" MemFS.store).2 = false).
Proof.
  apply (service_config_raises "/store/torch" "/out" (MemFS.step_config None None)
           (MemFS.deployment "sklearn") (MemFS.start "sklearn") _
           {| world := (MemFS.makedirs "/out/kserve" MemFS.store).2;
              heap := [MemFS.deployment "sklearn"] |}).
  - reflexivity.
  - vm_compute. reflexivity.
Defined.

Lemma torch_parameters_checked_after_folders_witness :
  prepare_torch_service_config "/store/torch" "/out" (MemFS.step_config None None)
    (MemFS.start "pytorch")
  = (Raise (RuntimeError "No torch serve parameters provided"),
     {| world := MemFS.folders_made; heap := [MemFS.deployment "pytorch"] |}).
Proof.
  apply (proj2 (torch_parameters_checked_after_folders "/store/torch" "/out"
                  (MemFS.step_config None None) (MemFS.start "pytorch") eq_refl)
           (MemFS.makedirs "/out/kserve/model-store" MemFS.store).2).
  - vm_compute. reflexivity.
  - vm_compute. reflexivity.
Defined.

Lemma custom_runtime_error_witness :
  ∃ msg, (prepare_custom_service_config "/store/torch" "/out"
            (MemFS.step_config None None) {| stack := Some MemFS.active_stack |}
            (MemFS.start "custom")).1
         = Raise (RuntimeError msg).
Proof.
  apply (custom_runtime_error (W := MemFS.fs) (F := nat)). reflexivity.
Defined.

Lemma custom_artifact_missing_witness :
  prepare_custom_service_config "/store/sk" "/out" MemFS.custom_config
    {| stack := Some MemFS.active_stack |} (MemFS.start "custom")
  = (Raise IndexError,
     {| world := (MemFS.copy_dir "/store/sk" "/out/kserve"
                    (MemFS.makedirs "/out/kserve" MemFS.store).2).2;
        heap := [MemFS.deployment "custom"] |}).
Proof.
  apply (custom_artifact_missing "/store/sk" "/out" MemFS.custom_config
           {| stack := Some MemFS.active_stack |}
           {| predict_function := "steps.predict" |} MemFS.active_stack
           (MemFS.start "custom")
           (MemFS.makedirs "/out/kserve" MemFS.store).2
           (MemFS.copy_dir "/store/sk" "/out/kserve"
              (MemFS.makedirs "/out/kserve" MemFS.store).2).2).
  - reflexivity.
  - reflexivity.
  - vm_compute. reflexivity.
  - vm_compute. reflexivity.
  - reflexivity.
Defined.

Lemma metadata_file_is_ascii_witness :
  ∃ text,
    file_content (world MemFS.saved) "/out/kserve/artifact.json" = Some text
    ∧ Json.printable_ascii text.
Proof.
  apply (metadata_file_is_ascii (PlatformLaws0 := memfs_laws) "/out/kserve"
           MemFS.trained MemFS.folder_made MemFS.saved).
  vm_compute. reflexivity.
Defined.

Lemma save_touches_nothing_else_witness :
  file_content (world MemFS.saved) "/store/sk/model" = Some "pickle".
Proof.
  apply (save_touches_nothing_else (PlatformLaws0 := memfs_laws) "/out/kserve"
           MemFS.trained MemFS.folder_made MemFS.saved).
  - vm_compute. reflexivity.
  - discriminate.
  - vm_compute. reflexivity.
Defined.

Lemma metadata_is_all_that_is_kept_witness :
  load_from_json_zenml_artifact "/out/kserve" MemFS.bare_saved
  = (Return {| uri := "/out/kserve";
               properties := <["materializer" := StringValue []]>
                               (<["datatype" := StringValue []]> ∅) |},
     {| world := world MemFS.bare_saved; heap := heap MemFS.bare_saved |}).
Proof.
  apply (metadata_is_all_that_is_kept (PlatformLaws0 := memfs_laws) "/out/kserve"
           MemFS.bare MemFS.folder_made MemFS.bare_saved
           (Json.dumps [(str_of "datatype", []); (str_of "materializer", [])])).
  - constructor.
  - constructor.
  - vm_compute. reflexivity.
  - vm_compute. reflexivity.
Defined.

Lemma load_needs_both_keys_witness :
  load_from_json_zenml_artifact "/out/kserve" MemFS.half_written
  = (Raise (KeyError "materializer"),
     {| world := world MemFS.half_written; heap := heap MemFS.half_written |}).
Proof.
  apply (load_needs_both_keys "/out/kserve"
           [(str_of "datatype", str_of "torch.nn.modules.module.Module")]
           MemFS.half_written (world MemFS.half_written)).
  - apply Forall_cons_2; [split; apply unicode_text_str_of | apply Forall_nil_2].
  - vm_compute. reflexivity.
  - vm_compute. by eexists.
  - vm_compute. reflexivity.
Defined.

Lemma generated_config_lines_witness :
  ∃ text,
    file_content
      (world (generate_model_deployer_config "mnist" "/tmp" (MemFS.start "pytorch")).2)
      "/tmp/tmp.properties" = Some text
    ∧ Py.split text "010" = (config_lines ++ [model_snapshot "mnist"])%list
    ∧ (∀ p c, file_content (world (MemFS.start "pytorch")) p = Some c →
              file_content
                (world (generate_model_deployer_config "mnist" "/tmp"
                          (MemFS.start "pytorch")).2) p = Some c)
    ∧ heap (generate_model_deployer_config "mnist" "/tmp" (MemFS.start "pytorch")).2
      = heap (MemFS.start "pytorch").
Proof.
  apply (generated_config_lines (PlatformLaws0 := memfs_laws) "mnist" "/tmp"
           (MemFS.start "pytorch") "/tmp/tmp.properties").
  - reflexivity.
  - vm_compute. reflexivity.
Defined.

Lemma custom_metadata_is_loaded_witness :
  ∃ served,
    heap MemFS.custom_served !! 1%nat = Some served
    ∧ KServe.model_uri served = "/out/kserve"
    ∧ load_from_json_zenml_artifact (KServe.model_uri served) MemFS.custom_served
      = (Return
           {| uri := "/out/kserve";
              properties :=
                <["materializer" :=
                    StringValue (string_value (properties_get MemFS.trained "materializer"))]>
                  (<["datatype" :=
                       StringValue (string_value (properties_get MemFS.trained "datatype"))]>
                     ∅) |},
         {| world := world MemFS.custom_served; heap := heap MemFS.custom_served |}).
Proof.
  apply (custom_metadata_is_loaded (PlatformLaws0 := memfs_laws) "/store/torch" "/out"
           MemFS.custom_config {| stack := Some MemFS.active_stack |}
           MemFS.active_stack MemFS.trained [] (MemFS.start "custom") 1
           MemFS.custom_served
           (Json.dumps
              [(str_of "datatype", str_of "torch.nn.modules.module.Module");
               (str_of "materializer",
                str_of "zenml.integrations.pytorch.materializers.PyTorchMaterializer")])
           (world MemFS.custom_served)).
  - reflexivity.
  - reflexivity.
  - apply unicode_text_str_of.
  - apply unicode_text_str_of.
  - vm_compute. reflexivity.
  - vm_compute. reflexivity.
Defined.

Lemma torch_layout_of_return_witness :
  ∃ temp_dir w archive properties_src w_properties properties,
    archiver_ran "/store/torch" "/out" MemFS.torch_config_generated
      (MemFS.deployment "pytorch") (MemFS.start "pytorch") temp_dir w
    ∧ file_content w (temp_dir </> "mnist.mar") = Some archive
    ∧ file_content (world MemFS.torch_served) "/out/kserve/model-store/mnist.mar"
      = Some archive
    ∧ fileio_copy properties_src "/out/kserve/config/config.properties" w_properties
      = (Done (), world MemFS.torch_served)
    ∧ file_content w_properties properties_src = Some properties
    ∧ file_content (world MemFS.torch_served) "/out/kserve/config/config.properties"
      = Some properties
    ∧ properties = deployer_config_text "mnist"
    ∧ ∃ served,
        heap MemFS.torch_served !! 1%nat = Some served
        ∧ KServe.model_uri served = "/out/kserve".
Proof.
  apply (torch_layout_of_return (PlatformLaws0 := memfs_laws) "/store/torch" "/out"
           MemFS.torch_config_generated (MemFS.torch_parameters None)
           (MemFS.deployment "pytorch") (MemFS.start "pytorch") 1 MemFS.torch_served).
  - reflexivity.
  - reflexivity.
  - vm_compute. reflexivity.
Defined.
